(** * Trace-viewer workbench: selection state, derived actions, tab registry
      and time boundaries.

    Shallow embedding of [packages/trace-viewer/src/ui/workbench.tsx].
    React state cells become fields of one record and every callback becomes
    a function from state to state, with the value its closure captured at
    render time as an argument where it reads one; memoised values become
    pure functions of their dependencies.  JavaScript numbers are IEEE-754 binary64 values and
    are modelled by the kernel's primitive floats, so comparisons, NaN and
    the two zeros behave as in the source. *)

From Stdlib Require Import Bool List String Ascii Arith ZArith Lia Floats.
Import ListNotations.

Local Open Scope string_scope.
Local Open Scope list_scope.

(* ================================================================== *)
(** ** JavaScript values used by the component *)
(* ================================================================== *)

Module Js.

(** A JavaScript [number]. *)
Definition number := float.

(** [ToBoolean] on a number: [+0], [-0] and [NaN] are falsy. *)
Definition truthyNumber (x : number) : bool :=
  negb (PrimFloat.eqb x 0%float) && PrimFloat.eqb x x.

(** [ToBoolean] on a string: only the empty string is falsy. *)
Definition truthyString (s : string) : bool :=
  negb (String.eqb s "").

(** [ToBoolean] on a possibly undefined value whose defined inhabitants
    have truthiness [t]. *)
Definition truthyOpt {A} (t : A -> bool) (v : option A) : bool :=
  match v with
  | Some x => t x
  | None => false
  end.

(** [v || d] where [v] may be undefined and [d] is defined. *)
Definition orDefault {A} (t : A -> bool) (v : option A) (d : A) : A :=
  match v with
  | Some x => if t x then x else d
  | None => d
  end.

(** [a || b] on possibly undefined objects (objects are always truthy). *)
Definition orObject {A} (a b : option A) : option A :=
  match a with
  | Some x => Some x
  | None => b
  end.

(** [o?.f] for a field [f] that may itself be undefined. *)
Definition optChain {A B} (o : option A) (f : A -> option B) : option B :=
  match o with
  | Some x => f x
  | None => None
  end.

(** [a > b] on numbers. *)
Definition gt (a b : number) : bool := PrimFloat.ltb b a.

(** Errors the component can raise while rendering. *)
Inductive error : Type :=
| ReferenceError (identifier : string).

(** A computation that either throws or completes with a value. *)
Definition result (A : Type) : Type := (error + A)%type.

Definition ret {A} (x : A) : result A := inr x.
Definition throw {A} (e : error) : result A := inl e.
Definition bind {A B} (m : result A) (k : A -> result B) : result B :=
  match m with
  | inl e => inl e
  | inr x => k x
  end.

(** Reading an identifier: an undeclared one throws. *)
Definition readIdentifier {A} (name : string) (binding : option A)
  : result A :=
  match binding with
  | Some v => ret v
  | None => throw (ReferenceError name)
  end.

(** [Array.prototype.find]. *)
Definition find {A} (p : A -> bool) (l : list A) : option A :=
  List.find p l.

(** [Array.prototype.indexOf], with the element comparison [eqb]
    standing for [===]; [-1] when absent. *)
Fixpoint indexOfFrom {A} (eqb : A -> A -> bool) (x : A) (l : list A)
  (i : Z) : Z :=
  match l with
  | [] => (-1)%Z
  | y :: rest => if eqb y x then i else indexOfFrom eqb x rest (i + 1)%Z
  end.

Definition indexOf {A} (eqb : A -> A -> bool) (l : list A) (x : A) : Z :=
  indexOfFrom eqb x l 0%Z.

(** The start position [Array.prototype.splice] really uses: a negative
    [start] counts from the end, and the result is clamped to the array. *)
Definition spliceStart (len : nat) (start : Z) : nat :=
  if (start <? 0)%Z
  then Z.to_nat (Z.max (Z.of_nat len + start) 0)
  else Nat.min (Z.to_nat start) len.

(** The array after [l.splice(start, deleteCount, ...items)]. *)
Definition splice {A} (l : list A) (start : Z) (deleteCount : nat)
  (items : list A) : list A :=
  let s := spliceStart (List.length l) start in
  firstn s l ++ items ++ skipn (s + deleteCount) l.

(** [Array.prototype.flat] on an array of arrays. *)
Definition flat {A} (l : list (list A)) : list A := List.concat l.

End Js.

(* ================================================================== *)
(** ** Data model *)
(* ================================================================== *)

(** [StackFrame] of the protocol. *)
Record StackFrame : Type := mkStackFrame {
  file : string;
  line : nat;
  column : nat
}.

(** [AfterActionTraceEventAttachment] of [@trace/trace]. *)
Record Attachment : Type := mkAttachment {
  name : string;
  contentType : string
}.

(** [modelUtil.ActionTraceEventInContext], restricted to the fields the
    workbench reads. *)
Record Action : Type := mkAction {
  callId : string;
  apiName : string;
  stack : option (list StackFrame);
  attachments : option (list Attachment)
}.

(** [ErrorDescription] of [./errorsTab]. *)
Record ErrorDescription : Type := mkErrorDescription {
  errorAction : option Action;
  errorStack : option (list StackFrame);
  message : string
}.

(** [Entry] of [@trace/har] and [ConsoleEntry] of [./consoleTab]: the
    workbench only stores the hovered one. *)
Record Entry : Type := mkEntry { url : string }.
Record ConsoleEntry : Type := mkConsoleEntry { timestamp : Js.number }.

(** [Boundaries] of [./geometry]. *)
Record Boundaries : Type := mkBoundaries {
  minimum : Js.number;
  maximum : Js.number
}.

(** [modelUtil.MultiTraceModel], restricted to what the workbench reads.
    [failedAction] holds the answer of the model's [failedAction()] query,
    whose body lives in [./modelUtil]. *)
Record MultiTraceModel : Type := mkModel {
  actions : list Action;
  failedAction : option Action;
  startTime : option Js.number;
  endTime : option Js.number;
  sdkLanguage : option string
}.

(** [TabbedPaneTabModel] of [@web/components/tabbedPane] without its lazy
    [render] callback, which belongs to the individual tab views. *)
Record TabbedPaneTabModel : Type := mkTab {
  id : string;
  title : string;
  count : option nat;
  errorCount : option nat
}.

(** An element of the [annotations] property. *)
Record Annotation : Type := mkAnnotation {
  type : string;
  description : option string
}.

Inductive DockSide : Type := bottom | right.

(* ================================================================== *)
(** ** Selection state store *)
(* ================================================================== *)

(** One field per [useState] / [useSetting] cell of the component. *)
Record State : Type := mkState {
  selectedCallId : option string;
  revealedError : option ErrorDescription;
  revealedAttachment : option Attachment;
  highlightedCallId : option string;
  highlightedEntry : option Entry;
  highlightedConsoleMessage : option ConsoleEntry;
  selectedNavigatorTab : string;
  selectedPropertiesTab : string;
  isInspecting : bool;
  highlightedLocator : string;
  selectedTime : option Boundaries;
  sidebarLocation : DockSide
}.

(** The cells right after mount; [propertiesTab] and
    [propertiesSidebarLocation] are what the settings store hands back
    (their defaults are ['source'] or ['call'], and ['bottom']). *)
Definition initialState (propertiesTab : string) (dock : DockSide) : State :=
  mkState None None None None None None "actions" propertiesTab false ""
          None dock.

Definition defaultPropertiesTab (showSourcesFirst : option bool) : string :=
  if Js.truthyOpt (fun b : bool => b) showSourcesFirst
  then "source" else "call".

(** The state setters returned by the hooks. *)
Definition setSelectedCallId (v : option string) (s : State) : State :=
  mkState v (revealedError s) (revealedAttachment s) (highlightedCallId s)
    (highlightedEntry s) (highlightedConsoleMessage s)
    (selectedNavigatorTab s) (selectedPropertiesTab s) (isInspecting s)
    (highlightedLocator s) (selectedTime s) (sidebarLocation s).

Definition setRevealedError (v : option ErrorDescription) (s : State)
  : State :=
  mkState (selectedCallId s) v (revealedAttachment s) (highlightedCallId s)
    (highlightedEntry s) (highlightedConsoleMessage s)
    (selectedNavigatorTab s) (selectedPropertiesTab s) (isInspecting s)
    (highlightedLocator s) (selectedTime s) (sidebarLocation s).

Definition setRevealedAttachment (v : option Attachment) (s : State)
  : State :=
  mkState (selectedCallId s) (revealedError s) v (highlightedCallId s)
    (highlightedEntry s) (highlightedConsoleMessage s)
    (selectedNavigatorTab s) (selectedPropertiesTab s) (isInspecting s)
    (highlightedLocator s) (selectedTime s) (sidebarLocation s).

Definition setHighlightedCallId (v : option string) (s : State) : State :=
  mkState (selectedCallId s) (revealedError s) (revealedAttachment s) v
    (highlightedEntry s) (highlightedConsoleMessage s)
    (selectedNavigatorTab s) (selectedPropertiesTab s) (isInspecting s)
    (highlightedLocator s) (selectedTime s) (sidebarLocation s).

Definition setHighlightedEntry (v : option Entry) (s : State) : State :=
  mkState (selectedCallId s) (revealedError s) (revealedAttachment s)
    (highlightedCallId s) v (highlightedConsoleMessage s)
    (selectedNavigatorTab s) (selectedPropertiesTab s) (isInspecting s)
    (highlightedLocator s) (selectedTime s) (sidebarLocation s).

Definition setHighlightedConsoleMessage (v : option ConsoleEntry)
  (s : State) : State :=
  mkState (selectedCallId s) (revealedError s) (revealedAttachment s)
    (highlightedCallId s) (highlightedEntry s) v
    (selectedNavigatorTab s) (selectedPropertiesTab s) (isInspecting s)
    (highlightedLocator s) (selectedTime s) (sidebarLocation s).

Definition setSelectedNavigatorTab (v : string) (s : State) : State :=
  mkState (selectedCallId s) (revealedError s) (revealedAttachment s)
    (highlightedCallId s) (highlightedEntry s) (highlightedConsoleMessage s)
    v (selectedPropertiesTab s) (isInspecting s)
    (highlightedLocator s) (selectedTime s) (sidebarLocation s).

Definition setSelectedPropertiesTab (v : string) (s : State) : State :=
  mkState (selectedCallId s) (revealedError s) (revealedAttachment s)
    (highlightedCallId s) (highlightedEntry s) (highlightedConsoleMessage s)
    (selectedNavigatorTab s) v (isInspecting s)
    (highlightedLocator s) (selectedTime s) (sidebarLocation s).

Definition setIsInspectingState (v : bool) (s : State) : State :=
  mkState (selectedCallId s) (revealedError s) (revealedAttachment s)
    (highlightedCallId s) (highlightedEntry s) (highlightedConsoleMessage s)
    (selectedNavigatorTab s) (selectedPropertiesTab s) v
    (highlightedLocator s) (selectedTime s) (sidebarLocation s).

Definition setHighlightedLocator (v : string) (s : State) : State :=
  mkState (selectedCallId s) (revealedError s) (revealedAttachment s)
    (highlightedCallId s) (highlightedEntry s) (highlightedConsoleMessage s)
    (selectedNavigatorTab s) (selectedPropertiesTab s) (isInspecting s)
    v (selectedTime s) (sidebarLocation s).

Definition setSelectedTime (v : option Boundaries) (s : State) : State :=
  mkState (selectedCallId s) (revealedError s) (revealedAttachment s)
    (highlightedCallId s) (highlightedEntry s) (highlightedConsoleMessage s)
    (selectedNavigatorTab s) (selectedPropertiesTab s) (isInspecting s)
    (highlightedLocator s) v (sidebarLocation s).

Definition setSidebarLocation (v : DockSide) (s : State) : State :=
  mkState (selectedCallId s) (revealedError s) (revealedAttachment s)
    (highlightedCallId s) (highlightedEntry s) (highlightedConsoleMessage s)
    (selectedNavigatorTab s) (selectedPropertiesTab s) (isInspecting s)
    (highlightedLocator s) (selectedTime s) v.

(** [setSelectedAction]: [action?.callId] becomes the selection and any
    revealed error is dropped. *)
Definition setSelectedAction (action : option Action) (s : State) : State :=
  setRevealedError None
    (setSelectedCallId (Js.optChain action (fun a => Some (callId a))) s).

Definition setHighlightedAction (highlightedAction : option Action)
  (s : State) : State :=
  setHighlightedCallId
    (Js.optChain highlightedAction (fun a => Some (callId a))) s.

(** The effect keyed on [model]. *)
Definition modelEffect (s : State) : State :=
  setRevealedError None (setSelectedTime None s).

Definition onActionSelected (action : Action) (s : State) : State :=
  setHighlightedAction None (setSelectedAction (Some action) s).

Definition selectPropertiesTab (tab : string) (s : State) : State :=
  let s := setSelectedPropertiesTab tab s in
  if negb (String.eqb tab "inspector")
  then setIsInspectingState false s
  else s.

(** [setIsInspecting].  The callback tests the [isInspecting] of the render
    that built it (it is among the dependencies of its [useCallback]), not
    the cell as earlier updates of the same batch left it.  [isInspecting]
    is that captured value and [s] the store the updates are applied to. *)
Definition setIsInspecting (isInspecting : bool) (value : bool) (s : State)
  : State :=
  let s' :=
    if negb isInspecting && value
    then selectPropertiesTab "inspector" s
    else s in
  setIsInspectingState value s'.

Definition locatorPicked (locator : string) (s : State) : State :=
  selectPropertiesTab "inspector" (setHighlightedLocator locator s).

Definition revealAttachment (attachment : Attachment) (s : State) : State :=
  setRevealedAttachment (Some attachment)
    (selectPropertiesTab "attachments" s).

(** The effect keyed on [revealSource]. *)
Definition revealSourceEffect (revealSource : option bool) (s : State)
  : State :=
  if Js.truthyOpt (fun b : bool => b) revealSource
  then selectPropertiesTab "source" s
  else s.

(** [revealInSource], handed to the errors tab. *)
Definition revealInSource (error : ErrorDescription) (s : State) : State :=
  let s :=
    match errorAction error with
    | Some a => setSelectedAction (Some a) s
    | None => setRevealedError (Some error) s
    end in
  selectPropertiesTab "source" s.

(** [revealConsole], handed to the action list. *)
Definition revealConsole (s : State) : State :=
  selectPropertiesTab "console" s.

(** [onAccepted], handed to the console tab. *)
Definition consoleAccepted (m : ConsoleEntry) (s : State) : State :=
  setSelectedTime (Some (mkBoundaries (timestamp m) (timestamp m))) s.

(** Everything a panel or an effect can do to the store.  An operation is a
    call of one of the callbacks; for [setIsInspecting] it records the
    [isInspecting] its closure captured. *)
Inductive Operation : Type :=
| OpSetSelectedAction (action : option Action)
| OpSetHighlightedAction (action : option Action)
| OpActionSelected (action : Action)
| OpSelectPropertiesTab (tab : string)
| OpSetIsInspecting (captured : bool) (value : bool)
| OpLocatorPicked (locator : string)
| OpSetHighlightedLocator (locator : string)
| OpRevealAttachment (attachment : Attachment)
| OpRevealInSource (error : ErrorDescription)
| OpRevealConsole
| OpRevealSourceEffect (revealSource : option bool)
| OpModelEffect
| OpSetSelectedTime (time : option Boundaries)
| OpConsoleAccepted (m : ConsoleEntry)
| OpSetHighlightedEntry (entry : option Entry)
| OpSetHighlightedConsoleMessage (m : option ConsoleEntry)
| OpSetSelectedNavigatorTab (tab : string)
| OpSetSidebarLocation (dock : DockSide).

Definition perform (op : Operation) (s : State) : State :=
  match op with
  | OpSetSelectedAction a => setSelectedAction a s
  | OpSetHighlightedAction a => setHighlightedAction a s
  | OpActionSelected a => onActionSelected a s
  | OpSelectPropertiesTab tab => selectPropertiesTab tab s
  | OpSetIsInspecting c v => setIsInspecting c v s
  | OpLocatorPicked l => locatorPicked l s
  | OpSetHighlightedLocator l => setHighlightedLocator l s
  | OpRevealAttachment a => revealAttachment a s
  | OpRevealInSource e => revealInSource e s
  | OpRevealConsole => revealConsole s
  | OpRevealSourceEffect r => revealSourceEffect r s
  | OpModelEffect => modelEffect s
  | OpSetSelectedTime t => setSelectedTime t s
  | OpConsoleAccepted m => consoleAccepted m s
  | OpSetHighlightedEntry e => setHighlightedEntry e s
  | OpSetHighlightedConsoleMessage m => setHighlightedConsoleMessage m s
  | OpSetSelectedNavigatorTab t => setSelectedNavigatorTab t s
  | OpSetSidebarLocation d => setSidebarLocation d s
  end.

(** Operations applied in the order they are called, each with the closure
    it carries. *)
Definition performAll (ops : list Operation) (s : State) : State :=
  fold_left (fun st op => perform op st) ops s.

(** The callback of operation [op] as the render of [rendered] builds it. *)
Definition builtBy (rendered : State) (op : Operation) : Operation :=
  match op with
  | OpSetIsInspecting _ value => OpSetIsInspecting (isInspecting rendered) value
  | _ => op
  end.

(** A batch: the operations of one event handler.  All of them are
    callbacks of the render of [rendered]; their updates pile up on the
    pending store [s] and the component renders again only afterwards. *)
Definition performBatchFrom (rendered : State) (batch : list Operation)
  (s : State) : State :=
  fold_left (fun st op => perform (builtBy rendered op) st) batch s.

Definition performBatch (batch : list Operation) (s : State) : State :=
  performBatchFrom s batch s.

(** A session: batches, with a render after each. *)
Definition performSession (batches : list (list Operation)) (s : State)
  : State :=
  fold_left (fun st batch => performBatch batch st) batches s.

(** The coupling between the inspecting flag and the properties tab. *)
Definition inspectingImpliesInspectorTab (s : State) : Prop :=
  isInspecting s = true -> selectedPropertiesTab s = "inspector".

(* ================================================================== *)
(** ** Derived action resolver *)
(* ================================================================== *)

(** [a.callId === wanted], where [wanted] may be undefined. *)
Definition callIdIs (wanted : option string) (a : Action) : bool :=
  match wanted with
  | Some w => String.eqb (callId a) w
  | None => false
  end.

(** The [highlightedAction] memo. *)
Definition highlightedAction (model : option MultiTraceModel)
  (highlightedCallId : option string) : option Action :=
  Js.optChain model
    (fun m => Js.find (callIdIs highlightedCallId) (actions m)).

(** The [for] loop of the [selectedAction] memo, started at position [i] on
    the remaining [rest] of the array: the first action named
    ['After Hooks'] at a non-zero position [i] stops the loop with
    [index = i - 1]; otherwise [index] is left as it was. *)
Fixpoint afterHooksLoop (rest : list Action) (i index : nat) : nat :=
  match rest with
  | [] => index
  | a :: rest' =>
      if String.eqb (apiName a) "After Hooks" && negb (Nat.eqb i 0)
      then i - 1
      else afterHooksLoop rest' (S i) index
  end.

(** The explicit selection, the first branch of the [selectedAction] memo. *)
Definition explicitSelection (model : option MultiTraceModel)
  (selectedCallId : option string) : option Action :=
  if Js.truthyOpt Js.truthyString selectedCallId
  then Js.optChain model
         (fun m => Js.find (callIdIs selectedCallId) (actions m))
  else None.

(** The [selectedAction] memo. *)
Definition selectedAction (model : option MultiTraceModel)
  (selectedCallId : option string) : option Action :=
  match explicitSelection model selectedCallId with
  | Some action => Some action
  | None =>
      match Js.optChain model failedAction with
      | Some failed => Some failed
      | None =>
          match model with
          | Some m =>
              if negb (Nat.eqb (List.length (actions m)) 0)
              then
                (* Select the last non-after hooks item. *)
                let index := List.length (actions m) - 1 in
                let index := afterHooksLoop (actions m) 0 index in
                nth_error (actions m) index
              else None
          | None => None
          end
      end
  end.

(** The [activeAction] memo. *)
Definition activeAction (selectedAction highlightedAction : option Action)
  : option Action :=
  Js.orObject highlightedAction selectedAction.

(** The [revealedStack] memo. *)
Definition revealedStack (activeAction : option Action)
  (revealedError : option ErrorDescription) : option (list StackFrame) :=
  match revealedError with
  | Some e => errorStack e
  | None => Js.optChain activeAction stack
  end.

(** The active action of a whole render: model and store in, action out. *)
Definition renderedActiveAction (model : option MultiTraceModel) (s : State)
  : option Action :=
  activeAction (selectedAction model (selectedCallId s))
               (highlightedAction model (highlightedCallId s)).

(** The specification's reading of the third resolver rule, written from its
    words: the last action, unless it is named ['After Hooks'] and is not the
    first action, in which case the action before it. *)
Definition spec_lastUnlessAfterHooks (acts : list Action) : option Action :=
  let n := List.length acts in
  match nth_error acts (n - 1) with
  | Some lastAction =>
      if String.eqb (apiName lastAction) "After Hooks" && negb (Nat.eqb (n - 1) 0)
      then nth_error acts (n - 2)
      else Some lastAction
  | None => None
  end.

(** The selected call id resolves when it is set, non-empty and carried by
    some action of the model. *)
Definition selectionResolves (m : MultiTraceModel)
  (selectedCallId : option string) : Prop :=
  exists sel a,
    selectedCallId = Some sel /\ sel <> "" /\
    In a (actions m) /\ callId a = sel.

(* ================================================================== *)
(** ** Tab registry *)
(* ================================================================== *)

(** What the tab models of a render are built from: the sizes reported by
    the errors, console and network models, and the component's own
    properties. *)
Record TabInputs : Type := mkTabInputs {
  model : option MultiTraceModel;
  showSourcesFirst : option bool;
  annotations : option (list Annotation);
  errorsSize : nat;
  consoleEntriesLength : nat;
  networkResourcesLength : nat
}.

(** The [attachments] memo:
    [model?.actions.map(a => a.attachments || []).flat() || []]. *)
Definition allAttachments (model : option MultiTraceModel)
  : list Attachment :=
  match model with
  | Some m =>
      Js.flat (map (fun a => match attachments a with
                             | Some l => l
                             | None => []
                             end) (actions m))
  | None => []
  end.

Definition inspectorTab : TabbedPaneTabModel :=
  mkTab "inspector" "Locator" None None.
Definition callTab : TabbedPaneTabModel :=
  mkTab "call" "Call" None None.
Definition logTab : TabbedPaneTabModel :=
  mkTab "log" "Log" None None.
Definition errorsTab (i : TabInputs) : TabbedPaneTabModel :=
  mkTab "errors" "Errors" None (Some (errorsSize i)).
Definition consoleTab (i : TabInputs) : TabbedPaneTabModel :=
  mkTab "console" "Console" (Some (consoleEntriesLength i)) None.
Definition networkTab (i : TabInputs) : TabbedPaneTabModel :=
  mkTab "network" "Network" (Some (networkResourcesLength i)) None.
Definition attachmentsTab (i : TabInputs) : TabbedPaneTabModel :=
  mkTab "attachments" "Attachments"
        (Some (List.length (allAttachments (model i)))) None.
Definition annotationsTab (annotations : list Annotation)
  : TabbedPaneTabModel :=
  mkTab "annotations" "Annotations" (Some (List.length annotations)) None.

(** The tab model of the declaration that the source keeps only as a
    comment. *)
Definition commentedSourceTab (fallbackSourceErrorCount : option nat)
  : TabbedPaneTabModel :=
  mkTab "source" "Source" None fallbackSourceErrorCount.

(** Identity of tab objects.  Every [const] of a render holds a fresh object,
    so two tab objects are the same object exactly when they come from the
    same declaration, whatever their fields hold. *)
Inductive TabDeclaration : Type :=
| DeclInspectorTab | DeclCallTab | DeclLogTab | DeclErrorsTab
| DeclConsoleTab | DeclNetworkTab | DeclAttachmentsTab | DeclAnnotationsTab
| DeclSourceTab.

Definition TabObject : Type := (TabDeclaration * TabbedPaneTabModel)%type.

Definition sameDeclaration (a b : TabDeclaration) : bool :=
  match a, b with
  | DeclInspectorTab, DeclInspectorTab
  | DeclCallTab, DeclCallTab
  | DeclLogTab, DeclLogTab
  | DeclErrorsTab, DeclErrorsTab
  | DeclConsoleTab, DeclConsoleTab
  | DeclNetworkTab, DeclNetworkTab
  | DeclAttachmentsTab, DeclAttachmentsTab
  | DeclAnnotationsTab, DeclAnnotationsTab
  | DeclSourceTab, DeclSourceTab => true
  | _, _ => false
  end.

(** [a === b] on tab objects. *)
Definition sameObject (a b : TabObject) : bool :=
  sameDeclaration (fst a) (fst b).

(** The array literal. *)
Definition baseTabs (i : TabInputs) : list TabbedPaneTabModel :=
  [ inspectorTab; callTab; logTab; errorsTab i; consoleTab i; networkTab i;
    attachmentsTab i ].

(** The array after the [annotations !== undefined] block. *)
Definition tabsWithAnnotations (i : TabInputs) : list TabbedPaneTabModel :=
  match annotations i with
  | Some a => baseTabs i ++ [annotationsTab a]
  | None => baseTabs i
  end.

(** The objects of the array after the [annotations !== undefined] block,
    each with the declaration it comes from. *)
Definition tabObjects (i : TabInputs) : list TabObject :=
  let tabs :=
    [ (DeclInspectorTab, inspectorTab); (DeclCallTab, callTab);
      (DeclLogTab, logTab); (DeclErrorsTab, errorsTab i);
      (DeclConsoleTab, consoleTab i); (DeclNetworkTab, networkTab i);
      (DeclAttachmentsTab, attachmentsTab i) ] in
  match annotations i with
  | Some a => tabs ++ [(DeclAnnotationsTab, annotationsTab a)]
  | None => tabs
  end.

(** The [tabs] array handed to the properties pane, for a scope in which
    the identifier [sourceTab] is bound as [sourceTabBinding] says; a bound
    one is the object of the [sourceTab] declaration. *)
Definition tabsInScope (sourceTabBinding : option TabbedPaneTabModel)
  (i : TabInputs) : Js.result (list TabbedPaneTabModel) :=
  let tabs := tabObjects i in
  let binding := option_map (fun t => (DeclSourceTab, t)) sourceTabBinding in
  if Js.truthyOpt (fun b : bool => b) (showSourcesFirst i)
  then
    Js.bind (Js.readIdentifier "sourceTab" binding) (fun sourceTab =>
      let sourceTabIndex := Js.indexOf sameObject tabs sourceTab in
      let tabs := Js.splice tabs sourceTabIndex 1 [] in
      Js.bind (Js.readIdentifier "sourceTab" binding)
        (fun sourceTab => Js.ret (map snd (Js.splice tabs 1 0 [sourceTab]))))
  else Js.ret (map snd tabs).

(** The [tabs] array of the component: no declaration of [sourceTab] is in
    scope, the only one being commented out. *)
Definition tabs (i : TabInputs) : Js.result (list TabbedPaneTabModel) :=
  tabsInScope None i.

(** The seven ids of the base sequence, in order. *)
Definition baseTabIds : list string :=
  ["inspector"; "call"; "log"; "errors"; "console"; "network";
   "attachments"].

(* ================================================================== *)
(** ** Boundary calculator *)
(* ================================================================== *)

(** [model?.startTime || 0]. *)
Definition rawMinimum (model : option MultiTraceModel) : Js.number :=
  Js.orDefault Js.truthyNumber (Js.optChain model startTime) 0%float.

(** [model?.endTime || 30000]. *)
Definition rawMaximum (model : option MultiTraceModel) : Js.number :=
  Js.orDefault Js.truthyNumber (Js.optChain model endTime) 30000%float.

(** The [boundaries] memo. *)
Definition boundaries (model : option MultiTraceModel) : Boundaries :=
  let b := mkBoundaries (rawMinimum model) (rawMaximum model) in
  let b :=
    if Js.gt (minimum b) (maximum b)
    then mkBoundaries 0%float 30000%float
    else b in
  (* Leave some nice free space on the right hand side. *)
  mkBoundaries (minimum b)
    (maximum b + (maximum b - minimum b) / 20)%float.

(** A model that only carries times. *)
Definition timedModel (startTime endTime : option Js.number)
  : MultiTraceModel :=
  mkModel [] None startTime endTime None.

(* ================================================================== *)
(** ** Remaining derived values of a render *)
(* ================================================================== *)

(** [model?.sdkLanguage || 'javascript'], the [sdkLanguage] constant. *)
Definition sdkLanguageOf (model : option MultiTraceModel) : string :=
  Js.orDefault Js.truthyString (Js.optChain model sdkLanguage) "javascript".

(** [model?.sdkLanguage ?? 'javascript'], what the network tab is given. *)
Definition networkTabSdkLanguage (model : option MultiTraceModel) : string :=
  match Js.optChain model sdkLanguage with
  | Some language => language
  | None => "javascript"
  end.

(** [SourceModel] and [SourceLocation] of [./modelUtil], restricted to what
    the workbench reads of a fallback location. *)
Record SourceError : Type := mkSourceError {
  errorLine : nat;
  errorMessage : string
}.

Record SourceModel : Type := mkSourceModel {
  errors : list SourceError
}.

Record SourceLocation : Type := mkSourceLocation {
  source : option SourceModel
}.

(** [fallbackSourceErrorCount]: set only when no action is selected and a
    fallback location was given. *)
Definition fallbackSourceErrorCount (selectedAction : option Action)
  (fallbackLocation : option SourceLocation) : option nat :=
  match selectedAction, fallbackLocation with
  | None, Some location =>
      Js.optChain (source location)
        (fun model => Some (List.length (errors model)))
  | _, _ => None
  end.

(** The orientation of the outer split view. *)
Definition splitOrientation (s : State) : string :=
  match sidebarLocation s with
  | bottom => "vertical"
  | right => "horizontal"
  end.

(** The mode of the properties pane. *)
Definition paneMode (s : State) : string :=
  match sidebarLocation s with
  | bottom => "default"
  | right => "select"
  end.

(** The one toolbar button of the properties pane: its title and what a
    click on it does. *)
Definition dockButtonTitle (s : State) : string :=
  match sidebarLocation s with
  | bottom => "Dock to right"
  | right => "Dock to bottom"
  end.

Definition dockButtonClick (s : State) : State :=
  match sidebarLocation s with
  | bottom => setSidebarLocation right s
  | right => setSidebarLocation bottom s
  end.

(** The stack shown by the source view of a whole render. *)
Definition renderedRevealedStack (model : option MultiTraceModel) (s : State)
  : option (list StackFrame) :=
  revealedStack (renderedActiveAction model s) (revealedError s).

(* ================================================================== *)
(** * Properties *)
(* ================================================================== *)

(** ** Boundary calculator *)

Example boundaries_scenario2 :
  boundaries (Some (timedModel (Some 100%float) (Some 50%float)))
  = mkBoundaries 0%float 31500%float.
Proof. reflexivity. Qed.

Example boundaries_regular :
  boundaries (Some (timedModel (Some 100%float) (Some 300%float)))
  = mkBoundaries 100%float 310%float.
Proof. reflexivity. Qed.

Example boundaries_no_model :
  boundaries None = mkBoundaries 0%float 31500%float.
Proof. reflexivity. Qed.

(** C4. Whenever the start time, after defaulting, is strictly greater than
    the end time, after defaulting, the boundary is exactly
    [{minimum: 0, maximum: 31500}]: the default window [{0, 30000}] with its
    5% padding of 1500 on the right. *)
Theorem boundaries_inverted_model :
  forall m : option MultiTraceModel,
    Js.gt (rawMinimum m) (rawMaximum m) = true ->
    boundaries m = mkBoundaries 0%float 31500%float.
Proof.
  intros m Hinverted.
  unfold boundaries.
  cbn [minimum maximum].
  rewrite Hinverted.
  reflexivity.
Qed.

Lemma boundaries_inverted_model_witness :
  Js.gt (rawMinimum (Some (timedModel (Some 100%float) (Some 50%float))))
        (rawMaximum (Some (timedModel (Some 100%float) (Some 50%float))))
  = true
  /\ boundaries (Some (timedModel (Some 100%float) (Some 50%float)))
     = mkBoundaries 0%float 31500%float.
Proof.
  split.
  - reflexivity.
  - apply (boundaries_inverted_model
             (Some (timedModel (Some 100%float) (Some 50%float)))).
    reflexivity.
Defined.

(** The raw window only depends on the two times of the model. *)
Lemma boundaries_times_only :
  forall m m' : MultiTraceModel,
    rawMinimum (Some m) = rawMinimum (Some m') ->
    rawMaximum (Some m) = rawMaximum (Some m') ->
    boundaries (Some m) = boundaries (Some m').
Proof.
  intros m m' Hmin Hmax.
  unfold boundaries.
  rewrite Hmin, Hmax.
  reflexivity.
Qed.

(** C10. An end time of 0 is handled like an absent end time, and a start
    time of 0 like an absent start time: the raw maximum is the default
    30000 rather than 0, and a model with both times 0 gets the boundary
    [{0, 31500}] instead of a window of width zero. *)
Theorem boundaries_zero_time_is_absent :
  forall m m' : MultiTraceModel,
    (endTime m = Some 0%float -> endTime m' = None ->
     startTime m = startTime m' ->
     rawMaximum (Some m) = 30000%float /\
     boundaries (Some m) = boundaries (Some m'))
    /\
    (startTime m = Some 0%float -> startTime m' = None ->
     endTime m = endTime m' ->
     boundaries (Some m) = boundaries (Some m'))
    /\
    (startTime m = Some 0%float -> endTime m = Some 0%float ->
     boundaries (Some m) = mkBoundaries 0%float 31500%float).
Proof.
  intros m m'.
  split; [| split].
  - intros He He' Hs.
    assert (Hmax : rawMaximum (Some m) = 30000%float).
    { unfold rawMaximum. cbn [Js.optChain]. rewrite He. reflexivity. }
    split; [exact Hmax |].
    apply boundaries_times_only.
    + unfold rawMinimum. cbn [Js.optChain]. rewrite Hs. reflexivity.
    + rewrite Hmax. unfold rawMaximum. cbn [Js.optChain]. rewrite He'.
      reflexivity.
  - intros Hs Hs' He.
    apply boundaries_times_only.
    + unfold rawMinimum. cbn [Js.optChain]. rewrite Hs, Hs'. reflexivity.
    + unfold rawMaximum. cbn [Js.optChain]. rewrite He. reflexivity.
  - intros Hs He.
    unfold boundaries, rawMinimum, rawMaximum.
    cbn [Js.optChain]. rewrite Hs, He.
    reflexivity.
Qed.

Lemma boundaries_zero_time_is_absent_witness :
  boundaries (Some (timedModel (Some 0%float) (Some 0%float)))
  = boundaries (Some (timedModel (Some 0%float) None))
  /\ boundaries (Some (timedModel (Some 0%float) (Some 0%float)))
     = boundaries (Some (timedModel None (Some 0%float)))
  /\ boundaries (Some (timedModel (Some 0%float) (Some 0%float)))
     = mkBoundaries 0%float 31500%float.
Proof.
  split; [| split].
  - apply (proj1 (boundaries_zero_time_is_absent
                    (timedModel (Some 0%float) (Some 0%float))
                    (timedModel (Some 0%float) None)));
      reflexivity.
  - apply (proj1 (proj2 (boundaries_zero_time_is_absent
                           (timedModel (Some 0%float) (Some 0%float))
                           (timedModel None (Some 0%float)))));
      reflexivity.
  - apply (proj2 (proj2 (boundaries_zero_time_is_absent
                           (timedModel (Some 0%float) (Some 0%float))
                           (timedModel None None))));
      reflexivity.
Defined.

(** ** Selection state store *)

(** What [selectPropertiesTab] leaves in the two coupled cells. *)
Lemma selectPropertiesTab_cells :
  forall tab s,
    selectedPropertiesTab (selectPropertiesTab tab s) = tab /\
    isInspecting (selectPropertiesTab tab s)
    = (String.eqb tab "inspector" && isInspecting s).
Proof.
  intros tab s. unfold selectPropertiesTab.
  destruct (String.eqb tab "inspector"); cbn; split; reflexivity.
Qed.

Lemma selectPropertiesTab_invariant :
  forall tab s, inspectingImpliesInspectorTab (selectPropertiesTab tab s).
Proof.
  intros tab s. unfold inspectingImpliesInspectorTab.
  destruct (selectPropertiesTab_cells tab s) as [Htab Hflag].
  rewrite Htab, Hflag.
  intros H. apply andb_true_iff in H. destruct H as [H _].
  now apply String.eqb_eq.
Qed.

(** What [setIsInspecting] leaves in the two coupled cells. *)
Lemma setIsInspecting_cells :
  forall captured value s,
    isInspecting (setIsInspecting captured value s) = value /\
    selectedPropertiesTab (setIsInspecting captured value s)
    = (if negb captured && value then "inspector"
       else selectedPropertiesTab s).
Proof.
  intros captured value s. unfold setIsInspecting.
  destruct (negb captured && value); split; reflexivity.
Qed.

(** When [setIsInspecting] keeps the coupling: always, except when it turns
    inspecting on through a closure that captured [true] while the store is
    not on the inspector tab. *)
Lemma setIsInspecting_invariant_iff :
  forall captured value s,
    inspectingImpliesInspectorTab (setIsInspecting captured value s) <->
    (captured = true -> value = true ->
     selectedPropertiesTab s = "inspector").
Proof.
  intros captured value s. unfold inspectingImpliesInspectorTab.
  destruct (setIsInspecting_cells captured value s) as [Hflag Htab].
  rewrite Hflag, Htab.
  destruct captured, value; cbn; split; intros H; auto; try discriminate.
Qed.

Create HintDb workbench.
#[local] Hint Resolve selectPropertiesTab_invariant : workbench.

(** One step of the store: every operation keeps the coupling, a
    [setIsInspecting] under the condition above. *)
Lemma perform_keeps_coupling :
  forall (op : Operation) (s : State),
    inspectingImpliesInspectorTab s ->
    (forall captured value,
        op = OpSetIsInspecting captured value ->
        captured = true -> value = true ->
        selectedPropertiesTab s = "inspector") ->
    inspectingImpliesInspectorTab (perform op s).
Proof.
  intros op s Hinv Hclosure.
  destruct op; cbn [perform];
    unfold locatorPicked, revealConsole, revealInSource;
    auto with workbench.
  - (* setIsInspecting *)
    apply setIsInspecting_invariant_iff. now apply Hclosure.
  - (* revealAttachment *)
    unfold revealAttachment, inspectingImpliesInspectorTab.
    cbn [isInspecting selectedPropertiesTab setRevealedAttachment].
    apply (selectPropertiesTab_invariant "attachments" s).
  - (* revealSource effect *)
    unfold revealSourceEffect.
    destruct (Js.truthyOpt _ revealSource); auto with workbench.
Qed.

(** A callback of the render of the store it is applied to keeps the
    coupling. *)
Lemma perform_builtBy_keeps_coupling :
  forall (op : Operation) (s : State),
    inspectingImpliesInspectorTab s ->
    inspectingImpliesInspectorTab (perform (builtBy s op) s).
Proof.
  intros op s Hinv. apply perform_keeps_coupling; [exact Hinv |].
  intros captured value Hop Hc Hv.
  destruct op; cbn [builtBy] in Hop; try discriminate Hop.
  injection Hop as Hcaptured _. apply Hinv. congruence.
Qed.

(** A batch of a render that is not inspecting keeps the coupling. *)
Lemma performBatchFrom_keeps_coupling :
  forall (rendered : State) (batch : list Operation) (s : State),
    isInspecting rendered = false ->
    inspectingImpliesInspectorTab s ->
    inspectingImpliesInspectorTab (performBatchFrom rendered batch s).
Proof.
  intros rendered batch. unfold performBatchFrom.
  induction batch as [| op batch IH]; intros s Hoff Hinv; cbn [fold_left].
  - exact Hinv.
  - apply IH; [exact Hoff |].
    apply perform_keeps_coupling; [exact Hinv |].
    intros captured value Hop Hc Hv.
    destruct op; cbn [builtBy] in Hop; try discriminate Hop.
    injection Hop as Hcaptured _. congruence.
Qed.

(** X16. In a session started from a fresh mount in which every event
    handler calls at most one operation before the next render, whatever
    tab the settings store hands back, inspecting on implies that the
    inspector tab is selected; so it does after any batch of a render that
    is not inspecting.  A batch of an inspecting render can break it: after
    [setIsInspecting(true)] and a render, [selectPropertiesTab('log')]
    followed in the same batch by [setIsInspecting(true)] ends on tab
    ['log'] with inspecting on, because the second callback still sees the
    [isInspecting] of its render. *)
Theorem session_invariant :
  (forall batches propertiesTab dock,
      (forall batch, In batch batches -> List.length batch <= 1) ->
      inspectingImpliesInspectorTab
        (performSession batches (initialState propertiesTab dock))) /\
  (forall batch s,
      inspectingImpliesInspectorTab s ->
      isInspecting s = false ->
      inspectingImpliesInspectorTab (performBatch batch s)) /\
  (let s := performSession
              [ [OpSetIsInspecting false true];
                [OpSelectPropertiesTab "log"; OpSetIsInspecting false true] ]
              (initialState "call" bottom) in
   selectedPropertiesTab s = "log" /\ isInspecting s = true /\
   ~ inspectingImpliesInspectorTab s).
Proof.
  split; [| split].
  - intros batches propertiesTab dock Hsingle.
    unfold performSession.
    assert (H0 : inspectingImpliesInspectorTab
                   (initialState propertiesTab dock))
      by (unfold inspectingImpliesInspectorTab; cbn; discriminate).
    revert H0. generalize (initialState propertiesTab dock).
    induction batches as [| batch batches IH]; intros s Hs; cbn [fold_left].
    + exact Hs.
    + apply IH.
      * intros b Hb. apply Hsingle. now right.
      * assert (Hlen : List.length batch <= 1) by (apply Hsingle; now left).
        destruct batch as [| op [| op' rest]]; cbn in Hlen; try lia.
        -- exact Hs.
        -- unfold performBatch, performBatchFrom. cbn [fold_left].
           now apply perform_builtBy_keeps_coupling.
  - intros batch s Hinv Hoff. unfold performBatch.
    now apply performBatchFrom_keeps_coupling.
  - cbn zeta. split; [reflexivity | split; [reflexivity |]].
    unfold inspectingImpliesInspectorTab. cbn. intros H.
    specialize (H eq_refl). discriminate H.
Qed.

Lemma session_invariant_witness :
  inspectingImpliesInspectorTab
    (performSession
       [ [OpSetIsInspecting false true]; [OpSelectPropertiesTab "log"];
         [OpSetIsInspecting false true]; [] ]
       (initialState "call" bottom)) /\
  isInspecting
    (performSession
       [ [OpSetIsInspecting false true]; [OpSelectPropertiesTab "log"];
         [OpSetIsInspecting false true]; [] ]
       (initialState "call" bottom)) = true.
Proof.
  split; [| reflexivity].
  apply (proj1 session_invariant).
  intros batch Hin. cbn in Hin.
  destruct Hin as [<- | [<- | [<- | [<- | []]]]]; cbn; lia.
Defined.




(** C5. From [selectedPropertiesTab = 'call'] and [isInspecting = false],
    [setIsInspecting(true)], called through the callback of that render,
    gives tab ['inspector'] with the flag on, and a following
    [selectPropertiesTab('log')] gives tab ['log'] with the flag off. *)
Theorem inspecting_then_log_scenario :
  forall s : State,
    selectedPropertiesTab s = "call" ->
    isInspecting s = false ->
    let s1 := setIsInspecting (isInspecting s) true s in
    let s2 := selectPropertiesTab "log" s1 in
    selectedPropertiesTab s1 = "inspector" /\ isInspecting s1 = true /\
    isInspecting s2 = false /\ selectedPropertiesTab s2 = "log".
Proof.
  intros s Htab Hflag s1 s2. subst s1 s2.
  unfold setIsInspecting. rewrite Hflag. cbn.
  repeat split.
Qed.

Lemma inspecting_then_log_scenario_witness :
  selectedPropertiesTab
    (setIsInspecting false true (initialState "call" bottom)) = "inspector" /\
  isInspecting (setIsInspecting false true (initialState "call" bottom))
  = true /\
  isInspecting
    (selectPropertiesTab "log"
       (setIsInspecting false true (initialState "call" bottom))) = false /\
  selectedPropertiesTab
    (selectPropertiesTab "log"
       (setIsInspecting false true (initialState "call" bottom))) = "log".
Proof.
  apply (inspecting_then_log_scenario (initialState "call" bottom));
    reflexivity.
Defined.

(** C8. When the model is replaced, the effect keyed on it resets
    [selectedTime] and [revealedError] to undefined and leaves every other
    cell of the store as it was. *)
Theorem modelEffect_frame :
  forall s : State,
    selectedTime (modelEffect s) = None /\
    revealedError (modelEffect s) = None /\
    selectedCallId (modelEffect s) = selectedCallId s /\
    highlightedCallId (modelEffect s) = highlightedCallId s /\
    selectedPropertiesTab (modelEffect s) = selectedPropertiesTab s /\
    isInspecting (modelEffect s) = isInspecting s /\
    highlightedLocator (modelEffect s) = highlightedLocator s /\
    sidebarLocation (modelEffect s) = sidebarLocation s /\
    revealedAttachment (modelEffect s) = revealedAttachment s /\
    selectedNavigatorTab (modelEffect s) = selectedNavigatorTab s /\
    highlightedEntry (modelEffect s) = highlightedEntry s /\
    highlightedConsoleMessage (modelEffect s) = highlightedConsoleMessage s.
Proof.
  intros s. unfold modelEffect. cbn. repeat split.
Qed.

(** ** Derived action resolver *)

(** C6. The active action is the highlighted action whenever there is one
    and the selected action otherwise; either way it is one of the two
    inputs, unchanged. *)
Theorem activeAction_precedence :
  forall selected highlighted : option Action,
    (forall a, highlighted = Some a ->
               activeAction selected highlighted = Some a) /\
    (highlighted = None -> activeAction selected highlighted = selected) /\
    (activeAction selected highlighted = highlighted \/
     activeAction selected highlighted = selected).
Proof.
  intros selected highlighted.
  unfold activeAction, Js.orObject.
  destruct highlighted as [h |].
  - split; [| split].
    + intros a Ha. exact Ha.
    + discriminate.
    + left. reflexivity.
  - split; [| split].
    + discriminate.
    + reflexivity.
    + right. reflexivity.
Qed.

Lemma activeAction_precedence_witness :
  activeAction (Some (mkAction "s" "click" None None))
               (Some (mkAction "h" "fill" None None))
  = Some (mkAction "h" "fill" None None)
  /\ activeAction (Some (mkAction "s" "click" None None)) None
     = Some (mkAction "s" "click" None None).
Proof.
  split.
  - apply (proj1 (activeAction_precedence
                    (Some (mkAction "s" "click" None None))
                    (Some (mkAction "h" "fill" None None)))).
    reflexivity.
  - apply (proj1 (proj2 (activeAction_precedence
                           (Some (mkAction "s" "click" None None)) None))).
    reflexivity.
Defined.

(** *** The explicit selection *)

Lemma truthyString_true : forall s, Js.truthyString s = true <-> s <> "".
Proof.
  intros s. unfold Js.truthyString.
  rewrite negb_true_iff. split.
  - intros H Heq. apply String.eqb_neq in H. contradiction.
  - intros H. now apply String.eqb_neq.
Qed.

(** A selection that does not resolve falls through the first rule. *)
Lemma explicitSelection_unresolved :
  forall m sel,
    ~ selectionResolves m sel ->
    explicitSelection (Some m) sel = None.
Proof.
  intros m sel Hno. unfold explicitSelection.
  destruct sel as [id0 |]; cbn [Js.truthyOpt]; [| reflexivity].
  destruct (Js.truthyString id0) eqn:Htruthy; [| reflexivity].
  cbn [Js.optChain]. unfold Js.find.
  destruct (List.find (callIdIs (Some id0)) (actions m)) as [a |] eqn:Hfind;
    [| reflexivity].
  exfalso. apply Hno.
  apply find_some in Hfind. destruct Hfind as [Hin Hid].
  exists id0, a. repeat split.
  - now apply truthyString_true.
  - exact Hin.
  - cbn in Hid. now apply String.eqb_eq.
Qed.

(** With a non-empty call id carried by some action, [find] yields the first
    action carrying it. *)
Lemma find_callId_first :
  forall (acts : list Action) (sel : string),
    (exists a, In a acts /\ callId a = sel) ->
    exists pre b post,
      acts = pre ++ b :: post /\ callId b = sel /\
      (forall c, In c pre -> callId c <> sel) /\
      List.find (callIdIs (Some sel)) acts = Some b.
Proof.
  induction acts as [| x rest IH]; intros sel [a [Hin Hid]].
  - destruct Hin.
  - destruct (String.eqb (callId x) sel) eqn:Hx.
    + exists [], x, rest. cbn. rewrite Hx.
      repeat split; try tauto. now apply String.eqb_eq.
    + assert (Hrest : exists a', In a' rest /\ callId a' = sel).
      { destruct Hin as [-> | Hin].
        - apply String.eqb_neq in Hx. contradiction.
        - now exists a. }
      destruct (IH sel Hrest) as (pre & b & post & Heq & Hb & Hpre & Hfind).
      exists (x :: pre), b, post. cbn. rewrite Hx.
      repeat split.
      * now rewrite Heq.
      * exact Hb.
      * intros c [<- | Hc]; [now apply String.eqb_neq | now apply Hpre].
      * exact Hfind.
Qed.

(** Distinct call ids leave one action per id. *)
Lemma callId_unique :
  forall (acts : list Action) (a b : Action),
    NoDup (map callId acts) ->
    In a acts -> In b acts -> callId a = callId b -> a = b.
Proof.
  induction acts as [| x rest IH]; intros a b Hnd Ha Hb Heq; [destruct Ha |].
  cbn in Hnd. inversion Hnd as [| ? ? Hnotin Hnd']; subst.
  destruct Ha as [-> | Ha]; destruct Hb as [-> | Hb].
  - reflexivity.
  - exfalso. apply Hnotin. rewrite Heq. now apply in_map.
  - exfalso. apply Hnotin. rewrite <- Heq. now apply in_map.
  - now apply IH.
Qed.

(** C7, as the code has it. For every model and every non-empty
    [selectedCallId] carried by some action of the model, the selected action
    is an action of the model with that call id, namely the first one in
    sequence, whatever the failed action and wherever the action stands; with
    distinct call ids it is the very action that matches. *)
Theorem selectedAction_explicit :
  forall (m : MultiTraceModel) (sel : string) (a : Action),
    sel <> "" ->
    In a (actions m) ->
    callId a = sel ->
    exists b,
      selectedAction (Some m) (Some sel) = Some b /\
      In b (actions m) /\ callId b = sel /\
      (exists pre post,
          actions m = pre ++ b :: post /\
          forall c, In c pre -> callId c <> sel) /\
      (NoDup (map callId (actions m)) -> b = a).
Proof.
  intros m sel a Hne Hin Hid.
  destruct (find_callId_first (actions m) sel) as
    (pre & b & post & Heq & Hb & Hpre & Hfind).
  { now exists a. }
  exists b.
  assert (Hinb : In b (actions m)).
  { rewrite Heq. apply in_or_app. right. now left. }
  repeat split.
  - unfold selectedAction, explicitSelection. cbn [Js.truthyOpt].
    apply truthyString_true in Hne. rewrite Hne.
    cbn [Js.optChain]. unfold Js.find. rewrite Hfind. reflexivity.
  - exact Hinb.
  - exact Hb.
  - now exists pre, post.
  - intros Hnd. apply (callId_unique (actions m)); try assumption.
    now rewrite Hb, Hid.
Qed.

Lemma selectedAction_explicit_witness :
  exists b,
    selectedAction
      (Some (mkModel [ mkAction "call@1" "goto" None None;
                       mkAction "call@2" "click" None None;
                       mkAction "call@3" "After Hooks" None None ]
                     (Some (mkAction "call@2" "click" None None))
                     None None None))
      (Some "call@1") = Some b /\
    b = mkAction "call@1" "goto" None None.
Proof.
  destruct (selectedAction_explicit
              (mkModel [ mkAction "call@1" "goto" None None;
                         mkAction "call@2" "click" None None;
                         mkAction "call@3" "After Hooks" None None ]
                       (Some (mkAction "call@2" "click" None None))
                       None None None)
              "call@1" (mkAction "call@1" "goto" None None))
    as (b & Hsel & _ & _ & _ & Huniq).
  - discriminate.
  - cbn. left. reflexivity.
  - reflexivity.
  - exists b. split; [exact Hsel |].
    apply Huniq. cbn.
    repeat constructor; cbn; intuition discriminate.
Defined.

(** The claim as written, for every [selectedCallId] including the empty
    string, fails: an empty call id is falsy, so the lookup is skipped and
    the later rules decide. *)
Lemma selectedAction_empty_callId_skipped :
  ~ (forall (m : MultiTraceModel) (sel : string) (a : Action),
        NoDup (map callId (actions m)) ->
        In a (actions m) -> callId a = sel ->
        selectedAction (Some m) (Some sel) = Some a).
Proof.
  intros H.
  specialize (H (mkModel [ mkAction "" "goto" None None;
                           mkAction "call@2" "click" None None ]
                         None None None None)
                "" (mkAction "" "goto" None None)).
  cbn in H.
  assert (Hsel : Some (mkAction "call@2" "click" None None)
                 = Some (mkAction "" "goto" None None)).
  { apply H.
    - repeat constructor; cbn; intuition discriminate.
    - left. reflexivity.
    - reflexivity. }
  discriminate Hsel.
Qed.

(** *** The default selection *)

(** The loop leaves [index] alone when no action at a non-zero position is
    named ['After Hooks']. *)
Lemma afterHooksLoop_none :
  forall (rest : list Action) (i index : nat),
    (forall k a, nth_error rest k = Some a -> 0 < i + k ->
                 apiName a <> "After Hooks") ->
    afterHooksLoop rest i index = index.
Proof.
  induction rest as [| x rest IH]; intros i index Hnone; cbn [afterHooksLoop].
  - reflexivity.
  - destruct (String.eqb (apiName x) "After Hooks") eqn:Hname;
      destruct (Nat.eqb i 0) eqn:Hi; cbn [andb negb].
    + apply IH. intros k a Hk Hpos.
      apply (Hnone (S k) a); [exact Hk | lia].
    + exfalso. apply Nat.eqb_neq in Hi.
      apply (Hnone 0 x); [reflexivity | lia | now apply String.eqb_eq].
    + apply IH. intros k a Hk Hpos.
      apply (Hnone (S k) a); [exact Hk | lia].
    + apply IH. intros k a Hk Hpos.
      apply (Hnone (S k) a); [exact Hk | lia].
Qed.

(** The loop stops at the first action named ['After Hooks'] that stands at
    a non-zero position, with the position before it. *)
Lemma afterHooksLoop_first :
  forall (rest : list Action) (i index k : nat) (a : Action),
    nth_error rest k = Some a ->
    0 < i + k ->
    apiName a = "After Hooks" ->
    (forall j b, j < k -> 0 < i + j -> nth_error rest j = Some b ->
                 apiName b <> "After Hooks") ->
    afterHooksLoop rest i index = i + k - 1.
Proof.
  induction rest as [| x rest IH]; intros i index k a Hk Hpos Hname Hfirst.
  - destruct k; discriminate Hk.
  - cbn [afterHooksLoop].
    destruct k as [| k].
    + cbn in Hk. injection Hk as ->.
      apply String.eqb_eq in Hname. rewrite Hname.
      destruct (Nat.eqb i 0) eqn:Hi; cbn [andb negb].
      * apply Nat.eqb_eq in Hi. lia.
      * f_equal. lia.
    + cbn in Hk.
      assert (Hx : String.eqb (apiName x) "After Hooks" && negb (Nat.eqb i 0)
                   = false).
      { destruct (Nat.eqb i 0) eqn:Hi; cbn [negb].
        - apply andb_false_r.
        - apply Nat.eqb_neq in Hi.
          destruct (String.eqb (apiName x) "After Hooks") eqn:Hn;
            [| reflexivity].
          exfalso. apply (Hfirst 0 x); [lia | lia | reflexivity |].
          now apply String.eqb_eq. }
      rewrite Hx.
      rewrite (IH (S i) index k a Hk); [lia | lia | exact Hname |].
      intros j b Hj Hposj Hnth.
      apply (Hfirst (S j) b); [lia | lia | exact Hnth].
Qed.

(** With nothing selected and no failure, the memo answers from the loop. *)
Lemma selectedAction_falls_to_loop :
  forall m sel,
    actions m <> [] ->
    ~ selectionResolves m sel ->
    failedAction m = None ->
    selectedAction (Some m) sel
    = nth_error (actions m)
        (afterHooksLoop (actions m) 0 (List.length (actions m) - 1)).
Proof.
  intros m sel Hne Hno Hfailed.
  unfold selectedAction.
  rewrite (explicitSelection_unresolved m sel Hno).
  cbn [Js.optChain]. rewrite Hfailed.
  destruct (actions m) as [| x rest] eqn:Hacts; [contradiction |].
  reflexivity.
Qed.

(** C1, as the code has it. For every model with at least one action, when
    [selectedCallId] does not resolve and the model reports no failed action:
    if no action at a non-zero position is named ['After Hooks'], the
    selected action is the last action (so a lone ['After Hooks'] at index 0
    is itself selected); otherwise it is the action right before the first
    action named ['After Hooks'] at a non-zero position.  In particular, when
    the last action is the only such one, the second-to-last action is
    selected. *)
Theorem selectedAction_default :
  forall (m : MultiTraceModel) (sel : option string),
    actions m <> [] ->
    ~ selectionResolves m sel ->
    failedAction m = None ->
    ((forall k a, 0 < k -> nth_error (actions m) k = Some a ->
                  apiName a <> "After Hooks") ->
     selectedAction (Some m) sel
     = nth_error (actions m) (List.length (actions m) - 1))
    /\
    (forall k a,
        0 < k -> nth_error (actions m) k = Some a ->
        apiName a = "After Hooks" ->
        (forall j b, 0 < j < k -> nth_error (actions m) j = Some b ->
                     apiName b <> "After Hooks") ->
        selectedAction (Some m) sel = nth_error (actions m) (k - 1)).
Proof.
  intros m sel Hne Hno Hfailed.
  rewrite (selectedAction_falls_to_loop m sel Hne Hno Hfailed).
  split.
  - intros Hnone.
    rewrite afterHooksLoop_none; [reflexivity |].
    intros k a Hk Hpos. apply (Hnone k a); [lia | exact Hk].
  - intros k a Hpos Hk Hname Hfirst.
    rewrite (afterHooksLoop_first (actions m) 0 _ k a Hk); try assumption.
    + reflexivity.
    + intros j b Hj Hposj Hnth. apply (Hfirst j b); [lia | exact Hnth].
Qed.

(** Scenario 4 and the two shapes spelled out by the specification. *)
Lemma selectedAction_default_witness :
  selectedAction
    (Some (mkModel [ mkAction "call@1" "goto" None None;
                     mkAction "call@2" "click" None None;
                     mkAction "call@3" "After Hooks" None None ]
                   None None None None))
    None
  = Some (mkAction "call@2" "click" None None)
  /\
  selectedAction
    (Some (mkModel [ mkAction "call@1" "After Hooks" None None ]
                   None None None None))
    None
  = Some (mkAction "call@1" "After Hooks" None None).
Proof.
  split.
  - apply (proj2 (selectedAction_default
                    (mkModel [ mkAction "call@1" "goto" None None;
                               mkAction "call@2" "click" None None;
                               mkAction "call@3" "After Hooks" None None ]
                             None None None None)
                    None
                    ltac:(discriminate)
                    ltac:(intros (x & y & Hx & _); discriminate Hx)
                    eq_refl)
             2 (mkAction "call@3" "After Hooks" None None)).
    + lia.
    + reflexivity.
    + reflexivity.
    + intros j b Hj Hnth.
      assert (j = 1) by lia. subst j. cbn in Hnth.
      injection Hnth as <-. cbn. discriminate.
  - apply (proj1 (selectedAction_default
                    (mkModel [ mkAction "call@1" "After Hooks" None None ]
                             None None None None)
                    None
                    ltac:(discriminate)
                    ltac:(intros (x & y & Hx & _); discriminate Hx)
                    eq_refl)).
    intros k a Hk Hnth.
    destruct k as [| [| k]]; [lia | discriminate Hnth | discriminate Hnth].
Defined.

(** The claim as written fails: an ['After Hooks'] action in the middle of
    the sequence stops the loop, although the last action is not named
    ['After Hooks']. *)
Lemma selectedAction_not_last_unless_afterHooks :
  ~ (forall (m : MultiTraceModel) (sel : option string),
        actions m <> [] ->
        ~ selectionResolves m sel ->
        failedAction m = None ->
        selectedAction (Some m) sel = spec_lastUnlessAfterHooks (actions m)).
Proof.
  intros H.
  specialize (H (mkModel [ mkAction "call@1" "goto" None None;
                           mkAction "call@2" "After Hooks" None None;
                           mkAction "call@3" "close" None None ]
                         None None None None)
                None).
  cbn in H.
  assert (Hsel : Some (mkAction "call@1" "goto" None None)
                 = Some (mkAction "call@3" "close" None None)).
  { apply H.
    - discriminate.
    - intros (x & y & Hx & _). discriminate Hx.
    - reflexivity. }
  discriminate Hsel.
Qed.

(** Where the specification's reading and the code agree: no action
    strictly between the first and the last is named ['After Hooks']. *)
Lemma selectedAction_matches_spec_reading :
  forall (m : MultiTraceModel) (sel : option string),
    actions m <> [] ->
    ~ selectionResolves m sel ->
    failedAction m = None ->
    (forall j b, 0 < j < List.length (actions m) - 1 ->
                 nth_error (actions m) j = Some b ->
                 apiName b <> "After Hooks") ->
    selectedAction (Some m) sel = spec_lastUnlessAfterHooks (actions m).
Proof.
  intros m sel Hne Hno Hfailed Hmiddle.
  rewrite (selectedAction_falls_to_loop m sel Hne Hno Hfailed).
  unfold spec_lastUnlessAfterHooks.
  set (n := List.length (actions m)) in *.
  assert (Hn : 0 < n).
  { subst n. destruct (actions m); [contradiction | cbn; lia]. }
  destruct (nth_error (actions m) (n - 1)) as [lastAction |] eqn:Hlast.
  2:{ apply nth_error_None in Hlast. fold n in Hlast. lia. }
  destruct (String.eqb (apiName lastAction) "After Hooks") eqn:Hname;
    destruct (Nat.eqb (n - 1) 0) eqn:Hidx; cbn [andb negb].
  - rewrite afterHooksLoop_none; [exact Hlast |].
    apply Nat.eqb_eq in Hidx.
    intros k a Hk Hpos. exfalso.
    assert (k < n) by (apply nth_error_Some; fold n; congruence).
    lia.
  - apply Nat.eqb_neq in Hidx. apply String.eqb_eq in Hname.
    rewrite (afterHooksLoop_first (actions m) 0 _ (n - 1) lastAction Hlast);
      try assumption; try lia.
    + f_equal. lia.
    + intros j b Hj Hposj Hnth. apply (Hmiddle j b); [lia | exact Hnth].
  - rewrite afterHooksLoop_none; [exact Hlast |].
    apply Nat.eqb_eq in Hidx.
    intros k a Hk Hpos. exfalso.
    assert (k < n) by (apply nth_error_Some; fold n; congruence).
    lia.
  - rewrite afterHooksLoop_none; [exact Hlast |].
    apply String.eqb_neq in Hname.
    intros k a Hk Hpos.
    assert (Hlt : k < n) by (apply nth_error_Some; fold n; congruence).
    destruct (Nat.eq_dec k (n - 1)) as [-> | Hneq].
    + rewrite Hlast in Hk. injection Hk as <-. exact Hname.
    + apply (Hmiddle k a); [lia | exact Hk].
Qed.

(** ** Tab registry *)

Lemma baseTabs_ids :
  forall i, map id (baseTabs i) = baseTabIds /\ List.length (baseTabs i) = 7.
Proof. intros i. split; reflexivity. Qed.

(** The tab models of the array's objects. *)
Lemma tabObjects_models :
  forall i, map snd (tabObjects i) = tabsWithAnnotations i.
Proof.
  intros i. unfold tabObjects, tabsWithAnnotations.
  destruct (annotations i); reflexivity.
Qed.

(** Without the show-sources-first flag the pane gets the array as the
    annotations block left it. *)
Lemma tabs_without_flag :
  forall i,
    Js.truthyOpt (fun b : bool => b) (showSourcesFirst i) = false ->
    tabs i = Js.ret (tabsWithAnnotations i).
Proof.
  intros i Hflag. unfold tabs, tabsInScope. rewrite Hflag.
  now rewrite tabObjects_models.
Qed.

(** C2, evaluated on the code. With the show-sources-first flag set, building
    the tab list throws: [sourceTab] is read although its only declaration is
    commented out, so no list with a source tab at index 1 is produced. *)
Theorem tabs_showSourcesFirst_throws :
  forall (m : option MultiTraceModel) (ann : option (list Annotation))
         (errors entries resources : nat),
    tabs (mkTabInputs m (Some true) ann errors entries resources)
    = Js.throw (Js.ReferenceError "sourceTab").
Proof.
  intros m ann errors entries resources. reflexivity.
Qed.

(** Restoring the commented declaration alone does not give the behaviour
    either: the tab is not a member of the array literal, [indexOf] answers
    [-1], and [splice(-1, 1)] deletes the last tab before the source tab is
    put at index 1. *)
Lemma tabsInScope_declared_drops_last :
  forall (m : option MultiTraceModel) (ann : option (list Annotation))
         (errors entries resources : nat) (fallbackErrors : option nat),
    let i := mkTabInputs m (Some true) ann errors entries resources in
    tabsInScope (Some (commentedSourceTab fallbackErrors)) i
    = Js.ret (inspectorTab :: commentedSourceTab fallbackErrors
              :: tl (removelast (tabsWithAnnotations i))).
Proof.
  intros m ann errors entries resources fallbackErrors i. subst i.
  destruct ann as [l |]; reflexivity.
Qed.

Example tabsInScope_declared_no_annotations :
  option_map (map id)
    (match tabsInScope (Some (commentedSourceTab None))
             (mkTabInputs None (Some true) None 0 0 0) with
     | inr l => Some l
     | inl _ => None
     end)
  = Some ["inspector"; "source"; "call"; "log"; "errors"; "console";
          "network"].
Proof. reflexivity. Qed.

(** C9, as the code has it. When the show-sources-first flag is not set: with
    [annotations] undefined the tab list is exactly the seven base tabs
    (inspector, call, log, errors, console, network, attachments, in that
    order); with [annotations] a list, exactly one tab is appended after
    them, the annotations tab, whose count is the length of the list. *)
Theorem tabs_annotations :
  forall i : TabInputs,
    Js.truthyOpt (fun b : bool => b) (showSourcesFirst i) = false ->
    (annotations i = None ->
     exists l, tabs i = Js.ret l /\
               map id l = baseTabIds /\ List.length l = 7)
    /\
    (forall a, annotations i = Some a ->
     exists l t, tabs i = Js.ret (l ++ [t]) /\
                 map id l = baseTabIds /\ List.length (l ++ [t]) = 8 /\
                 id t = "annotations" /\
                 count t = Some (List.length a)).
Proof.
  intros i Hflag.
  rewrite (tabs_without_flag i Hflag). unfold tabsWithAnnotations.
  split.
  - intros Hnone. rewrite Hnone.
    exists (baseTabs i). repeat split.
  - intros a Hsome. rewrite Hsome.
    exists (baseTabs i), (annotationsTab a). repeat split.
Qed.

Lemma tabs_annotations_witness :
  (exists l, tabs (mkTabInputs None None None 0 0 0) = Js.ret l /\
             map id l = baseTabIds /\ List.length l = 7)
  /\
  (exists l t,
      tabs (mkTabInputs None (Some false)
              (Some [mkAnnotation "x" None]) 0 0 0) = Js.ret (l ++ [t]) /\
      map id l = baseTabIds /\ List.length (l ++ [t]) = 8 /\
      id t = "annotations" /\ count t = Some 1).
Proof.
  split.
  - apply (proj1 (tabs_annotations (mkTabInputs None None None 0 0 0)
                    eq_refl)).
    reflexivity.
  - apply (proj2 (tabs_annotations
                    (mkTabInputs None (Some false)
                       (Some [mkAnnotation "x" None]) 0 0 0)
                    eq_refl) [mkAnnotation "x" None]).
    reflexivity.
Defined.

(** The claim as written, for every configuration, fails: with the
    show-sources-first flag set and [annotations] undefined the seven base
    tabs are not what the pane gets. *)
Lemma tabs_not_always_base :
  ~ (forall i : TabInputs,
        annotations i = None ->
        exists l, tabs i = Js.ret l /\ map id l = baseTabIds).
Proof.
  intros H.
  destruct (H (mkTabInputs None (Some true) None 0 0 0) eq_refl)
    as (l & Htabs & _).
  discriminate Htabs.
Qed.

(* ================================================================== *)
(** * Further properties of the component *)
(* ================================================================== *)

(** ** Resolution of the selected action *)

(** X1. When the selection does not resolve and the model reports a failed
    action, that failed action is the selected action, wherever it stands
    and whatever the other actions are named. *)
Theorem selectedAction_failed :
  forall (m : MultiTraceModel) (sel : option string) (failed : Action),
    ~ selectionResolves m sel ->
    failedAction m = Some failed ->
    selectedAction (Some m) sel = Some failed.
Proof.
  intros m sel failed Hno Hfailed.
  unfold selectedAction.
  rewrite (explicitSelection_unresolved m sel Hno).
  cbn [Js.optChain]. rewrite Hfailed. reflexivity.
Qed.

Lemma selectedAction_failed_witness :
  selectedAction
    (Some (mkModel [ mkAction "call@1" "goto" None None;
                     mkAction "call@2" "click" None None;
                     mkAction "call@3" "After Hooks" None None ]
                   (Some (mkAction "call@1" "goto" None None))
                   None None None))
    (Some "stale@7")
  = Some (mkAction "call@1" "goto" None None).
Proof.
  apply (selectedAction_failed
           (mkModel [ mkAction "call@1" "goto" None None;
                      mkAction "call@2" "click" None None;
                      mkAction "call@3" "After Hooks" None None ]
                    (Some (mkAction "call@1" "goto" None None))
                    None None None)
           (Some "stale@7") (mkAction "call@1" "goto" None None)).
  - intros (x & a & Hx & _ & Hin & Hid).
    injection Hx as <-. cbn in Hin.
    destruct Hin as [<- | [<- | [<- | []]]]; discriminate Hid.
  - reflexivity.
Defined.

(** The loop never leaves the array. *)
Lemma afterHooksLoop_bound :
  forall (rest : list Action) (i index : nat),
    index < i + List.length rest ->
    afterHooksLoop rest i index < i + List.length rest.
Proof.
  induction rest as [| x rest IH]; intros i index Hlt; cbn [afterHooksLoop].
  - exact Hlt.
  - cbn [List.length] in *.
    destruct (String.eqb (apiName x) "After Hooks" && negb (Nat.eqb i 0))
      eqn:Hstop.
    + lia.
    + specialize (IH (S i) index). lia.
Qed.

(** An undefined selected action means an empty model without failure. *)
Lemma selectedAction_undefined_inv :
  forall (m : MultiTraceModel) (sel : option string),
    selectedAction (Some m) sel = None ->
    actions m = [] /\ failedAction m = None.
Proof.
  intros m sel H. unfold selectedAction in H.
  destruct (explicitSelection (Some m) sel); [discriminate |].
  cbn [Js.optChain] in H.
  destruct (failedAction m) as [f |]; [discriminate |].
  destruct (actions m) as [| x rest] eqn:Hacts; [split; reflexivity |].
  exfalso. cbn [List.length Nat.eqb negb] in H.
  apply nth_error_None in H.
  pose proof (afterHooksLoop_bound (x :: rest) 0
                (List.length (x :: rest) - 1)) as Hb.
  cbn [List.length] in *. lia.
Qed.

(** X2. The selected action is undefined exactly when there is nothing to
    select: without a model it is always undefined, and with a model it is
    undefined if and only if the model has no action and reports no failed
    action.  A model with at least one action always has a selected action,
    whatever call id is stored. *)
Theorem selectedAction_undefined_iff :
  forall sel : option string,
    selectedAction None sel = None /\
    forall m : MultiTraceModel,
      selectedAction (Some m) sel = None <->
      actions m = [] /\ failedAction m = None.
Proof.
  intros sel. split.
  - unfold selectedAction, explicitSelection.
    destruct (Js.truthyOpt Js.truthyString sel); reflexivity.
  - intros m. split.
    + apply selectedAction_undefined_inv.
    + intros [Hacts Hfailed].
      unfold selectedAction, explicitSelection.
      cbn [Js.optChain]. rewrite Hacts, Hfailed.
      destruct (Js.truthyOpt Js.truthyString sel); reflexivity.
Qed.

(** X3. The selected action is never made up: it is an action of the model
    or the action the model reports as failed. *)
Theorem selectedAction_from_model :
  forall (m : MultiTraceModel) (sel : option string) (a : Action),
    selectedAction (Some m) sel = Some a ->
    In a (actions m) \/ failedAction m = Some a.
Proof.
  intros m sel a H. unfold selectedAction in H.
  destruct (explicitSelection (Some m) sel) as [e |] eqn:Hexp.
  - left. injection H as <-.
    unfold explicitSelection in Hexp.
    destruct (Js.truthyOpt Js.truthyString sel); [| discriminate].
    cbn [Js.optChain] in Hexp. unfold Js.find in Hexp.
    now apply find_some in Hexp.
  - cbn [Js.optChain] in H.
    destruct (failedAction m) as [f |].
    + right. exact H.
    + left.
      destruct (negb (Nat.eqb (List.length (actions m)) 0)); [| discriminate].
      now apply nth_error_In in H.
Qed.

Lemma selectedAction_from_model_witness :
  In (mkAction "call@2" "click" None None)
     [ mkAction "call@1" "goto" None None;
       mkAction "call@2" "click" None None ]
  \/ (None : option Action) = Some (mkAction "call@2" "click" None None).
Proof.
  apply (selectedAction_from_model
           (mkModel [ mkAction "call@1" "goto" None None;
                      mkAction "call@2" "click" None None ]
                    None None None None)
           None (mkAction "call@2" "click" None None)).
  reflexivity.
Defined.

(** ** Hover and click *)

(** No id, no highlighted action. *)
Lemma highlightedAction_undefined :
  forall model : option MultiTraceModel, highlightedAction model None = None.
Proof.
  intros model. unfold highlightedAction, Js.find.
  destruct model as [m |]; cbn [Js.optChain]; [| reflexivity].
  induction (actions m) as [| x rest IH]; [reflexivity | exact IH].
Qed.

(** An id carried by some action finds the first action carrying it. *)
Lemma highlightedAction_found :
  forall (m : MultiTraceModel) (hl : string) (a : Action),
    In a (actions m) -> callId a = hl ->
    exists b, highlightedAction (Some m) (Some hl) = Some b /\
              In b (actions m) /\ callId b = hl /\
              (exists pre post,
                  actions m = pre ++ b :: post /\
                  forall c, In c pre -> callId c <> hl) /\
              (NoDup (map callId (actions m)) -> b = a).
Proof.
  intros m hl a Hin Hid.
  unfold highlightedAction, Js.find. cbn [Js.optChain].
  destruct (find_callId_first (actions m) hl) as
    (pre & b & post & Heq & Hb & Hpre & Hfind).
  { now exists a. }
  assert (Hinb : In b (actions m)).
  { rewrite Heq. apply in_or_app. right. now left. }
  exists b.
  split; [exact Hfind | split; [exact Hinb | split; [exact Hb | split]]].
  - now exists pre, post.
  - intros Hnd. apply (callId_unique (actions m)); try assumption.
    now rewrite Hb, Hid.
Qed.

(** X4. The highlighted action is looked up without any truthiness guard:
    an undefined id or an id no action carries gives no highlighted action,
    and any id carried by some action, the empty string included, gives the
    first action carrying it, the one no action with that id precedes (the
    action itself when call ids are distinct). *)
Theorem highlightedAction_lookup :
  forall (m : MultiTraceModel),
    highlightedAction (Some m) None = None /\
    (forall hl, (forall a, In a (actions m) -> callId a <> hl) ->
                highlightedAction (Some m) (Some hl) = None) /\
    (forall hl a, In a (actions m) -> callId a = hl ->
       exists b, highlightedAction (Some m) (Some hl) = Some b /\
                 In b (actions m) /\ callId b = hl /\
                 (exists pre post,
                     actions m = pre ++ b :: post /\
                     forall c, In c pre -> callId c <> hl) /\
                 (NoDup (map callId (actions m)) -> b = a)).
Proof.
  intros m.
  split; [apply highlightedAction_undefined | split].
  - intros hl Hnone.
    unfold highlightedAction, Js.find. cbn [Js.optChain].
    destruct (List.find (callIdIs (Some hl)) (actions m)) as [b |] eqn:Hfind;
      [| reflexivity].
    apply find_some in Hfind. destruct Hfind as [Hin Hid].
    cbn in Hid. apply String.eqb_eq in Hid.
    exfalso. now apply (Hnone b).
  - apply highlightedAction_found.
Qed.

Lemma highlightedAction_lookup_witness :
  exists b,
    highlightedAction
      (Some (mkModel [ mkAction "" "goto" None None;
                       mkAction "call@2" "click" None None ]
                     None None None None))
      (Some "") = Some b /\
    b = mkAction "" "goto" None None.
Proof.
  destruct (proj2 (proj2 (highlightedAction_lookup
              (mkModel [ mkAction "" "goto" None None;
                         mkAction "call@2" "click" None None ]
                       None None None None)))
              "" (mkAction "" "goto" None None))
    as (b & Hhl & _ & _ & _ & Huniq).
  - cbn. left. reflexivity.
  - reflexivity.
  - exists b. split; [exact Hhl |].
    apply Huniq. cbn.
    repeat constructor; cbn; intuition discriminate.
Defined.

(** X5. Hovering never changes the persisted selection: after
    [setHighlightedAction] the stored call id, and with it the selected
    action of any model, are what they were; and once the hover ends the
    active action is the selected action again. *)
Theorem hover_keeps_selection :
  forall (model : option MultiTraceModel) (hovered : option Action)
         (s : State),
    selectedCallId (setHighlightedAction hovered s) = selectedCallId s /\
    selectedAction model (selectedCallId (setHighlightedAction hovered s))
    = selectedAction model (selectedCallId s) /\
    renderedActiveAction model
      (setHighlightedAction None (setHighlightedAction hovered s))
    = selectedAction model (selectedCallId s).
Proof.
  intros model hovered s.
  split; [reflexivity | split; [reflexivity |]].
  unfold renderedActiveAction, activeAction.
  cbn [setHighlightedAction Js.optChain setHighlightedCallId
       highlightedCallId selectedCallId].
  rewrite highlightedAction_undefined. reflexivity.
Qed.

(** X6. While an action of the model is hovered, it is the active action,
    whatever is selected, provided call ids are distinct. *)
Theorem hover_is_active :
  forall (m : MultiTraceModel) (a : Action) (s : State),
    NoDup (map callId (actions m)) ->
    In a (actions m) ->
    renderedActiveAction (Some m) (setHighlightedAction (Some a) s) = Some a.
Proof.
  intros m a s Hnd Hin.
  unfold renderedActiveAction, activeAction.
  cbn [setHighlightedAction Js.optChain setHighlightedCallId
       highlightedCallId selectedCallId].
  destruct (highlightedAction_found m (callId a) a Hin eq_refl)
    as (b & Hhl & _ & _ & _ & Huniq).
  rewrite Hhl, (Huniq Hnd). reflexivity.
Qed.

Lemma hover_is_active_witness :
  renderedActiveAction
    (Some (mkModel [ mkAction "call@1" "goto" None None;
                     mkAction "call@2" "click" None None ]
                   None None None None))
    (setHighlightedAction (Some (mkAction "call@1" "goto" None None))
       (initialState "call" bottom))
  = Some (mkAction "call@1" "goto" None None).
Proof.
  apply (hover_is_active
           (mkModel [ mkAction "call@1" "goto" None None;
                      mkAction "call@2" "click" None None ]
                    None None None None)
           (mkAction "call@1" "goto" None None)
           (initialState "call" bottom)).
  - cbn. repeat constructor; cbn; intuition discriminate.
  - cbn. left. reflexivity.
Defined.

(** A member of a model with distinct call ids is selected by its own,
    non-empty, call id. *)
Lemma selectedAction_of_member :
  forall (m : MultiTraceModel) (a : Action),
    NoDup (map callId (actions m)) ->
    In a (actions m) ->
    callId a <> "" ->
    selectedAction (Some m) (Some (callId a)) = Some a.
Proof.
  intros m a Hnd Hin Hne.
  destruct (find_callId_first (actions m) (callId a)) as
    (pre & b & post & Heq & Hb & _ & Hfind).
  { now exists a. }
  assert (Hinb : In b (actions m)).
  { rewrite Heq. apply in_or_app. right. now left. }
  assert (b = a) by (apply (callId_unique (actions m)); assumption).
  subst b.
  unfold selectedAction, explicitSelection. cbn [Js.truthyOpt].
  apply truthyString_true in Hne. rewrite Hne.
  cbn [Js.optChain]. unfold Js.find. rewrite Hfind. reflexivity.
Qed.

(** X7. A click on an action of the model makes it both the selected and
    the active action of the next render, ends any hover and drops any
    revealed error, provided call ids are distinct and the action's call id
    is not empty. *)
Theorem click_selects_action :
  forall (m : MultiTraceModel) (a : Action) (s : State),
    NoDup (map callId (actions m)) ->
    In a (actions m) ->
    callId a <> "" ->
    let s' := onActionSelected a s in
    selectedAction (Some m) (selectedCallId s') = Some a /\
    renderedActiveAction (Some m) s' = Some a /\
    highlightedCallId s' = None /\
    revealedError s' = None /\
    renderedRevealedStack (Some m) s' = stack a.
Proof.
  intros m a s Hnd Hin Hne s'. subst s'.
  assert (Hsel : selectedAction (Some m)
                   (selectedCallId (onActionSelected a s)) = Some a).
  { cbn. now apply selectedAction_of_member. }
  assert (Hact : renderedActiveAction (Some m) (onActionSelected a s)
                 = Some a).
  { unfold renderedActiveAction. rewrite Hsel.
    cbn [onActionSelected setHighlightedAction Js.optChain
         setHighlightedCallId highlightedCallId].
    rewrite highlightedAction_undefined. reflexivity. }
  split; [exact Hsel | split; [exact Hact | split; [reflexivity |]]].
  split; [reflexivity |].
  unfold renderedRevealedStack. rewrite Hact. reflexivity.
Qed.

Lemma click_selects_action_witness :
  renderedActiveAction
    (Some (mkModel [ mkAction "call@1" "goto" None None;
                     mkAction "call@2" "click" None None ]
                   None None None None))
    (onActionSelected (mkAction "call@1" "goto" None None)
       (initialState "call" bottom))
  = Some (mkAction "call@1" "goto" None None).
Proof.
  refine (proj1 (proj2 (click_selects_action
           (mkModel [ mkAction "call@1" "goto" None None;
                      mkAction "call@2" "click" None None ]
                    None None None None)
           (mkAction "call@1" "goto" None None)
           (initialState "call" bottom) _ _ _))).
  - cbn. repeat constructor; cbn; intuition discriminate.
  - cbn. left. reflexivity.
  - discriminate.
Defined.

(** X8. Revealing an error in the source always ends on the ['source'] tab
    with inspecting off.  An error without an action is stored as the
    revealed error, leaves the selection alone, and its stack is the
    revealed stack whatever action is active; an error with an action
    stores that action's call id as the selection instead and drops any
    revealed error, so that, for a model that contains that action and has
    distinct call ids, when the action's call id is not empty and nothing is
    hovered, the revealed stack is the stack of that action. *)
Theorem revealInSource_effects :
  forall (e : ErrorDescription) (s : State),
    let s' := revealInSource e s in
    selectedPropertiesTab s' = "source" /\
    isInspecting s' = false /\
    (errorAction e = None ->
     revealedError s' = Some e /\
     selectedCallId s' = selectedCallId s /\
     forall model, renderedRevealedStack model s' = errorStack e) /\
    (forall a, errorAction e = Some a ->
       revealedError s' = None /\
       selectedCallId s' = Some (callId a) /\
       forall m, NoDup (map callId (actions m)) -> In a (actions m) ->
                 callId a <> "" -> highlightedCallId s = None ->
                 renderedRevealedStack (Some m) s' = stack a).
Proof.
  intros e s s'. subst s'. unfold revealInSource.
  destruct (errorAction e) as [a |] eqn:Haction.
  - split; [reflexivity | split; [reflexivity | split; [discriminate |]]].
    intros a' Ha'. injection Ha' as <-.
    split; [reflexivity | split; [reflexivity |]].
    intros m Hnd Hin Hne Hhover.
    unfold renderedRevealedStack, renderedActiveAction.
    change (highlightedCallId
              (selectPropertiesTab "source" (setSelectedAction (Some a) s)))
      with (highlightedCallId s).
    change (selectedCallId
              (selectPropertiesTab "source" (setSelectedAction (Some a) s)))
      with (Some (callId a)).
    change (revealedError
              (selectPropertiesTab "source" (setSelectedAction (Some a) s)))
      with (@None ErrorDescription).
    rewrite Hhover, highlightedAction_undefined.
    rewrite (selectedAction_of_member m a Hnd Hin Hne). reflexivity.
  - split; [reflexivity | split; [reflexivity | split]].
    + intros _. split; [reflexivity | split; [reflexivity |]].
      intros model. reflexivity.
    + discriminate.
Qed.

Lemma revealInSource_effects_witness :
  renderedRevealedStack
    (Some (mkModel [ mkAction "call@1" "goto"
                       (Some [mkStackFrame "a.spec.ts" 3 5]) None ]
                   None None None None))
    (revealInSource
       (mkErrorDescription None (Some [mkStackFrame "b.spec.ts" 9 1])
          "boom")
       (initialState "call" bottom))
  = Some [mkStackFrame "b.spec.ts" 9 1]
  /\
  renderedRevealedStack
    (Some (mkModel [ mkAction "call@1" "goto"
                       (Some [mkStackFrame "a.spec.ts" 3 5]) None ]
                   None None None None))
    (revealInSource
       (mkErrorDescription
          (Some (mkAction "call@1" "goto"
                   (Some [mkStackFrame "a.spec.ts" 3 5]) None))
          (Some [mkStackFrame "b.spec.ts" 9 1]) "boom")
       (initialState "call" bottom))
  = Some [mkStackFrame "a.spec.ts" 3 5].
Proof.
  split.
  - apply (proj1 (proj2 (proj2 (revealInSource_effects
             (mkErrorDescription None (Some [mkStackFrame "b.spec.ts" 9 1])
                "boom")
             (initialState "call" bottom)))) eq_refl).
  - apply (proj2 (proj2 (proj2 (revealInSource_effects
             (mkErrorDescription
                (Some (mkAction "call@1" "goto"
                         (Some [mkStackFrame "a.spec.ts" 3 5]) None))
                (Some [mkStackFrame "b.spec.ts" 9 1]) "boom")
             (initialState "call" bottom))))
             (mkAction "call@1" "goto"
                (Some [mkStackFrame "a.spec.ts" 3 5]) None)
             eq_refl).
    + cbn. repeat constructor; cbn; intuition discriminate.
    + cbn. left. reflexivity.
    + discriminate.
    + reflexivity.
Defined.

(** ** Tab registry and its inputs *)

(** A tab list is only produced with the show-sources-first flag off. *)
Lemma tabs_ret_inv :
  forall i l,
    tabs i = Js.ret l ->
    Js.truthyOpt (fun b : bool => b) (showSourcesFirst i) = false /\
    l = tabsWithAnnotations i.
Proof.
  intros i l H. unfold tabs, tabsInScope in H.
  destruct (Js.truthyOpt (fun b : bool => b) (showSourcesFirst i)).
  - discriminate H.
  - injection H as <-. split; [reflexivity | apply tabObjects_models].
Qed.

(** X9. Whenever a tab list is produced, its ids are pairwise distinct, the
    inspector tab comes first, every id is one of the seven base ids or
    ['annotations'], and no tab has the id ['source'], the tab that
    [revealInSource] and the reveal-source effect select. *)
Theorem tabs_ids :
  forall (i : TabInputs) (l : list TabbedPaneTabModel),
    tabs i = Js.ret l ->
    NoDup (map id l) /\
    (exists rest, l = inspectorTab :: rest) /\
    (forall t, In t l -> In (id t) (baseTabIds ++ ["annotations"])) /\
    (forall e s, ~ In (selectedPropertiesTab (revealInSource e s))
                      (map id l)) /\
    (forall s, ~ In (selectedPropertiesTab (revealSourceEffect (Some true) s))
                    (map id l)).
Proof.
  intros i l H. apply tabs_ret_inv in H. destruct H as [_ ->].
  assert (Hsource : ~ In "source" (map id (tabsWithAnnotations i))).
  { unfold tabsWithAnnotations.
    destruct (annotations i); cbn; intuition discriminate. }
  split; [| split; [| split; [| split]]].
  - unfold tabsWithAnnotations.
    destruct (annotations i); cbn;
      repeat constructor; cbn; intuition discriminate.
  - unfold tabsWithAnnotations.
    destruct (annotations i); cbn; eexists; reflexivity.
  - intros t Hin. unfold tabsWithAnnotations in Hin.
    destruct (annotations i); cbn in Hin;
      repeat (destruct Hin as [<- | Hin]; [cbn; tauto |]);
      destruct Hin.
  - intros e s.
    replace (selectedPropertiesTab (revealInSource e s)) with "source";
      [exact Hsource |].
    unfold revealInSource. destruct (errorAction e); reflexivity.
  - intros s. exact Hsource.
Qed.

Lemma tabs_ids_witness :
  NoDup (map id
           (tabsWithAnnotations
              (mkTabInputs None None (Some [mkAnnotation "x" None]) 1 2 3))).
Proof.
  apply (proj1 (tabs_ids
                  (mkTabInputs None None (Some [mkAnnotation "x" None]) 1 2 3)
                  _ eq_refl)).
Defined.


(** X19. The [sdkLanguage] constant, computed with [||], is never the empty
    string: it is the model's language when that is set and non-empty, and
    ['javascript'] without a model, without a language, or with an empty
    one.  The network tab is given another value, computed with [??]: it
    is the same except for a model whose language is the empty string,
    which it keeps. *)
Theorem sdkLanguageOf_never_empty :
  forall model : option MultiTraceModel,
    sdkLanguageOf model <> "" /\
    (forall m lang, model = Some m -> sdkLanguage m = Some lang ->
                    lang <> "" -> sdkLanguageOf model = lang) /\
    (Js.optChain model sdkLanguage = None \/
     Js.optChain model sdkLanguage = Some "" ->
     sdkLanguageOf model = "javascript") /\
    (Js.optChain model sdkLanguage <> Some "" ->
     networkTabSdkLanguage model = sdkLanguageOf model) /\
    (Js.optChain model sdkLanguage = Some "" ->
     networkTabSdkLanguage model = "").
Proof.
  intros model. unfold sdkLanguageOf, networkTabSdkLanguage, Js.orDefault.
  split; [| split; [| split; [| split]]].
  - destruct (Js.optChain model sdkLanguage) as [lang |]; [| discriminate].
    destruct (Js.truthyString lang) eqn:Ht; [| discriminate].
    now apply truthyString_true.
  - intros m lang -> Hlang Hne. cbn [Js.optChain]. rewrite Hlang.
    apply truthyString_true in Hne. rewrite Hne. reflexivity.
  - intros [-> | ->]; reflexivity.
  - intros Hne.
    destruct (Js.optChain model sdkLanguage) as [lang |]; [| reflexivity].
    assert (Ht : Js.truthyString lang = true).
    { apply truthyString_true. intros ->. now apply Hne. }
    rewrite Ht. reflexivity.
  - intros ->. reflexivity.
Qed.

Lemma sdkLanguageOf_never_empty_witness :
  sdkLanguageOf (Some (mkModel [] None None None (Some "python"))) = "python"
  /\ sdkLanguageOf (Some (mkModel [] None None None (Some ""))) = "javascript"
  /\ networkTabSdkLanguage (Some (mkModel [] None None None (Some ""))) = "".
Proof.
  split; [| split].
  - apply (proj1 (proj2 (sdkLanguageOf_never_empty
                     (Some (mkModel [] None None None (Some "python")))))
             (mkModel [] None None None (Some "python")) "python");
      [reflexivity | reflexivity | discriminate].
  - apply (proj1 (proj2 (proj2 (sdkLanguageOf_never_empty
                     (Some (mkModel [] None None None (Some ""))))))).
    right. reflexivity.
  - apply (proj2 (proj2 (proj2 (proj2 (sdkLanguageOf_never_empty
                     (Some (mkModel [] None None None (Some "")))))))).
    reflexivity.
Defined.

(** X18. For a model with at least one action the fallback error count is
    never set, whatever is selected and whatever fallback location is
    given: such a model always has a selected action. *)
Theorem fallbackSourceErrorCount_unset :
  forall (m : MultiTraceModel) (sel : option string)
         (fallbackLocation : option SourceLocation),
    actions m <> [] ->
    fallbackSourceErrorCount (selectedAction (Some m) sel) fallbackLocation
    = None.
Proof.
  intros m sel loc Hne.
  destruct (selectedAction (Some m) sel) as [a |] eqn:Hsel.
  - reflexivity.
  - apply selectedAction_undefined_inv in Hsel. destruct Hsel as [Hacts _].
    contradiction.
Qed.

Lemma fallbackSourceErrorCount_unset_witness :
  fallbackSourceErrorCount
    (selectedAction
       (Some (mkModel [mkAction "call@1" "goto" None None]
                      None None None None)) None)
    (Some (mkSourceLocation
             (Some (mkSourceModel [mkSourceError 3 "unexpected token"]))))
  = None
  /\
  fallbackSourceErrorCount
    (selectedAction (Some (mkModel [] None None None None)) None)
    (Some (mkSourceLocation
             (Some (mkSourceModel [mkSourceError 3 "unexpected token"]))))
  = Some 1.
Proof.
  split.
  - apply (fallbackSourceErrorCount_unset
             (mkModel [mkAction "call@1" "goto" None None]
                      None None None None)).
    discriminate.
  - reflexivity.
Defined.

(** ** Operations of the store *)

(** X11. Leaving the inspector tab ends inspecting for good: after selecting
    any other tab, coming back to the inspector tab shows it with
    inspecting still off, whatever the state was before; and of two tab
    selections in a row the later one decides the tab. *)
Theorem leaving_inspector_ends_inspecting :
  forall (s : State) (other : string),
    other <> "inspector" ->
    isInspecting (selectPropertiesTab other s) = false /\
    isInspecting
      (selectPropertiesTab "inspector" (selectPropertiesTab other s))
    = false /\
    selectedPropertiesTab
      (selectPropertiesTab "inspector" (selectPropertiesTab other s))
    = "inspector" /\
    forall later,
      selectedPropertiesTab
        (selectPropertiesTab later (selectPropertiesTab other s)) = later.
Proof.
  intros s other Hother.
  apply String.eqb_neq in Hother.
  assert (Hoff : isInspecting (selectPropertiesTab other s) = false).
  { rewrite (proj2 (selectPropertiesTab_cells other s)), Hother.
    reflexivity. }
  split; [exact Hoff | split; [| split]].
  - rewrite (proj2 (selectPropertiesTab_cells "inspector" _)), Hoff.
    reflexivity.
  - apply (proj1 (selectPropertiesTab_cells "inspector" _)).
  - intros later. apply (proj1 (selectPropertiesTab_cells later _)).
Qed.

Lemma leaving_inspector_ends_inspecting_witness :
  isInspecting
    (selectPropertiesTab "inspector"
       (selectPropertiesTab "log"
          (setIsInspecting false true (initialState "call" bottom))))
  = false.
Proof.
  apply (proj1 (proj2 (leaving_inspector_ends_inspecting
                         (setIsInspecting false true
                            (initialState "call" bottom))
                         "log" ltac:(discriminate)))).
Defined.

(** X12. Every operation of the store is idempotent: receiving the same
    event twice in a row leaves the store as after the first time, whether
    the second call goes through the same callback (same batch) or, for
    [setIsInspecting], through the callback of the render that follows the
    first call. *)
Theorem perform_idempotent :
  forall (op : Operation) (s : State),
    perform op (perform op s) = perform op s /\
    perform (builtBy (perform op s) op) (perform op s) = perform op s.
Proof.
  intros op s. destruct op; cbn [perform builtBy];
    try (split; reflexivity).
  - (* selectPropertiesTab *)
    unfold selectPropertiesTab.
    destruct (negb (String.eqb tab "inspector")); split; reflexivity.
  - (* setIsInspecting *)
    rewrite (proj1 (setIsInspecting_cells captured value s)).
    unfold setIsInspecting.
    destruct captured, value; split; reflexivity.
  - (* revealInSource *)
    unfold revealInSource. destruct (errorAction error); split; reflexivity.
  - (* revealSource effect *)
    unfold revealSourceEffect.
    destruct (Js.truthyOpt (fun b : bool => b) revealSource);
      split; reflexivity.
Qed.

(** X13. Inspecting is switched on by [setIsInspecting(true)] and by nothing
    else: no other operation takes the store from inspecting off to
    inspecting on, whatever its closure captured. *)
Theorem inspecting_only_turned_on_explicitly :
  forall (op : Operation) (s : State),
    isInspecting s = false ->
    isInspecting (perform op s) = true ->
    exists captured, op = OpSetIsInspecting captured true.
Proof.
  intros op s Hoff Hon.
  destruct op; cbn [perform] in Hon;
    try (exfalso;
         unfold locatorPicked, revealAttachment, revealConsole,
                revealInSource, revealSourceEffect in Hon;
         repeat match type of Hon with
                | context [match ?x with _ => _ end] => destruct x
                end;
         cbn [isInspecting setRevealedAttachment] in Hon;
         try rewrite (proj2 (selectPropertiesTab_cells _ _)) in Hon;
         cbn in Hon; try rewrite Hoff in Hon;
         try rewrite andb_false_r in Hon;
         discriminate Hon).
  rewrite (proj1 (setIsInspecting_cells captured value s)) in Hon.
  subst value. now exists captured.
Qed.

Lemma inspecting_only_turned_on_explicitly_witness :
  exists captured, OpSetIsInspecting false true = OpSetIsInspecting captured true.
Proof.
  apply (inspecting_only_turned_on_explicitly (OpSetIsInspecting false true)
           (initialState "call" bottom)); reflexivity.
Defined.

(** X14. The stored selection changes only through [setSelectedAction], a
    click on an action, or revealing an error that has an action: hovering,
    tab changes, inspecting, locator picks, attachment reveals, time
    selections, docking and model replacement all leave [selectedCallId]
    as it is. *)
Theorem selection_changed_only_by_selecting :
  forall (op : Operation) (s : State),
    selectedCallId (perform op s) <> selectedCallId s ->
    (exists a, op = OpSetSelectedAction a) \/
    (exists a, op = OpActionSelected a) \/
    (exists e a, op = OpRevealInSource e /\ errorAction e = Some a).
Proof.
  intros op s Hchanged.
  destruct op; cbn [perform] in Hchanged;
    try (left; eexists; reflexivity);
    try (right; left; eexists; reflexivity);
    try (exfalso; apply Hchanged;
         unfold locatorPicked, revealAttachment, revealConsole,
                revealSourceEffect, setIsInspecting, selectPropertiesTab;
         repeat match goal with
                | |- context [if ?x then _ else _] => destruct x
                end;
         reflexivity).
  (* revealInSource *)
  right. right. exists error.
  unfold revealInSource in Hchanged.
  destruct (errorAction error) as [a |].
  - exists a. split; reflexivity.
  - exfalso. apply Hchanged. reflexivity.
Qed.

Lemma selection_changed_only_by_selecting_witness :
  (exists a, OpActionSelected (mkAction "call@1" "goto" None None)
             = OpSetSelectedAction a) \/
  (exists a, OpActionSelected (mkAction "call@1" "goto" None None)
             = OpActionSelected a) \/
  (exists e a, OpActionSelected (mkAction "call@1" "goto" None None)
               = OpRevealInSource e /\ errorAction e = Some a).
Proof.
  apply (selection_changed_only_by_selecting
           (OpActionSelected (mkAction "call@1" "goto" None None))
           (initialState "call" bottom)).
  cbn. discriminate.
Defined.

(** One step never clears a revealed attachment. *)
Lemma perform_keeps_revealedAttachment :
  forall (op : Operation) (s : State),
    revealedAttachment s <> None ->
    revealedAttachment (perform op s) <> None.
Proof.
  intros op s Hset.
  destruct op; cbn [perform];
    unfold locatorPicked, revealAttachment, revealConsole, revealInSource,
           revealSourceEffect, setIsInspecting, selectPropertiesTab;
    repeat match goal with
           | |- context [if ?x then _ else _] => destruct x
           | |- context [match errorAction ?e with _ => _ end] =>
               destruct (errorAction e)
           end;
    cbn; try exact Hset; discriminate.
Qed.

(** X15. A revealed attachment is never cleared: once [revealAttachment] has
    run, no sequence of operations, selecting another action and replacing
    the model included, brings [revealedAttachment] back to undefined. *)
Theorem revealedAttachment_never_cleared :
  forall (ops : list Operation) (attachment : Attachment) (s : State),
    revealedAttachment (performAll ops (revealAttachment attachment s))
    <> None.
Proof.
  intros ops attachment s. unfold performAll.
  assert (H0 : revealedAttachment (revealAttachment attachment s) <> None)
    by (cbn; discriminate).
  revert H0. generalize (revealAttachment attachment s).
  induction ops as [| op ops IH]; intros st Hst; cbn [fold_left].
  - exact Hst.
  - apply IH. now apply perform_keeps_revealedAttachment.
Qed.

(** X17. The dock button always offers the other side: a click moves the
    sidebar to the side its title names, flips the orientation of the split
    view and the mode of the pane, touches nothing else, and a second click
    restores the store exactly. *)
Theorem dockButtonClick_toggles :
  forall s : State,
    dockButtonClick (dockButtonClick s) = s /\
    sidebarLocation (dockButtonClick s) <> sidebarLocation s /\
    splitOrientation (dockButtonClick s) <> splitOrientation s /\
    paneMode (dockButtonClick s) <> paneMode s /\
    (dockButtonTitle s = "Dock to right" <->
     sidebarLocation (dockButtonClick s) = right) /\
    selectedCallId (dockButtonClick s) = selectedCallId s /\
    selectedPropertiesTab (dockButtonClick s) = selectedPropertiesTab s /\
    isInspecting (dockButtonClick s) = isInspecting s.
Proof.
  intros [sel err att hl he hc nav tab insp loc time dock].
  unfold dockButtonClick, splitOrientation, paneMode, dockButtonTitle.
  destruct dock; cbn; repeat split; try discriminate; try reflexivity.
Qed.

(** ** Boundary calculator *)

(** [number || default] is never NaN when the default is not. *)
Lemma orDefault_number_defined :
  forall (v : option Js.number) (d : Js.number),
    PrimFloat.eqb d d = true ->
    PrimFloat.eqb (Js.orDefault Js.truthyNumber v d)
                  (Js.orDefault Js.truthyNumber v d) = true.
Proof.
  intros v d Hd. unfold Js.orDefault.
  destruct v as [x |]; [| exact Hd].
  destruct (Js.truthyNumber x) eqn:Hx; [| exact Hd].
  unfold Js.truthyNumber in Hx.
  apply andb_true_iff in Hx. exact (proj2 Hx).
Qed.

(** Comparison of specified floats is antisymmetric. *)
Lemma SFcompare_antisym :
  forall a b c, SFcompare a b = Some c -> SFcompare b a = Some (CompOpp c).
Proof.
  intros a b c H.
  destruct a as [sa | sa | | sa ma ea]; destruct b as [sb | sb | | sb mb eb];
    cbn in *; try discriminate;
    try (injection H as <-; try destruct sa; try destruct sb; reflexivity).
  injection H as <-.
  rewrite (Z.compare_antisym ea eb).
  destruct sa, sb; cbn; try reflexivity;
    destruct (ea ?= eb)%Z; cbn; try reflexivity;
    rewrite ?CompOpp_involutive, ?Pos.compare_cont_antisym; cbn;
    reflexivity.
Qed.

(** On numbers that are not NaN, [x > y] false means [x <= y]. *)
Lemma number_not_gt_le :
  forall x y : Js.number,
    PrimFloat.eqb x x = true -> PrimFloat.eqb y y = true ->
    Js.gt x y = false -> PrimFloat.leb x y = true.
Proof.
  intros x y Hx Hy Hgt. unfold Js.gt in Hgt.
  rewrite eqb_spec in Hx, Hy. rewrite ltb_spec in Hgt. rewrite leb_spec.
  unfold SFeqb, SFltb, SFleb in *.
  destruct (SFcompare (Prim2SF x) (Prim2SF y)) as [c |] eqn:Hc.
  - apply SFcompare_antisym in Hc. rewrite Hc in Hgt.
    destruct c; cbn in Hgt; try reflexivity. discriminate.
  - exfalso.
    destruct (Prim2SF x), (Prim2SF y); cbn in *; discriminate.
Qed.

(** X20. Every boundary is a padded window [{lo, hi + (hi - lo) / 20}] whose
    unpadded ends are never NaN and always ordered, [lo <= hi]: they are the
    model's defaulted start and end times, or [0] and [30000] when those are
    inverted.  In particular a NaN time in the model never reaches the
    minimum. *)
Theorem boundaries_window :
  forall model : option MultiTraceModel,
    exists lo hi : Js.number,
      boundaries model = mkBoundaries lo (hi + (hi - lo) / 20)%float /\
      PrimFloat.leb lo hi = true /\
      PrimFloat.eqb lo lo = true /\
      PrimFloat.eqb hi hi = true /\
      ((Js.gt (rawMinimum model) (rawMaximum model) = false /\
        lo = rawMinimum model /\ hi = rawMaximum model) \/
       (Js.gt (rawMinimum model) (rawMaximum model) = true /\
        lo = 0%float /\ hi = 30000%float)).
Proof.
  intros model. unfold boundaries. cbn [minimum maximum].
  destruct (Js.gt (rawMinimum model) (rawMaximum model)) eqn:Hinv.
  - exists 0%float, 30000%float.
    repeat split; try reflexivity. right. repeat split.
  - exists (rawMinimum model), (rawMaximum model).
    assert (Hlo : PrimFloat.eqb (rawMinimum model) (rawMinimum model) = true)
      by (apply orDefault_number_defined; reflexivity).
    assert (Hhi : PrimFloat.eqb (rawMaximum model) (rawMaximum model) = true)
      by (apply orDefault_number_defined; reflexivity).
    split; [reflexivity | split; [| split; [exact Hlo | split]]].
    + now apply number_not_gt_le.
    + exact Hhi.
    + left. repeat split.
Qed.

Example boundaries_nan_times :
  boundaries (Some (timedModel (Some nan) (Some nan)))
  = mkBoundaries 0%float 31500%float.
Proof. reflexivity. Qed.
